(** * The resilient scraper of [ex6_resilient_scraper/main.py]

    A shallow embedding of the crawl loop (progress file, block detection,
    page scraping, resume rule and the retry-forever handler) together with
    the session builders of the sibling exercises, and the properties of
    the crawl engine that hold, or fail, on that code.

    Python values are embedded dynamically ([pyval]): the progress object
    is whatever [json.load] returned, and every subscript or method call on
    it may raise, exactly as in the script. *)

From Stdlib Require Import Decimal DecimalPos DecimalZ DecimalFacts.
From Stdlib Require Import String Ascii List ZArith Bool Lia Arith.
From Stdlib Require Import DecimalString.
Import ListNotations.

Local Open Scope string_scope.
Local Open Scope Z_scope.

(** ** Python values and exceptions *)

Module Py.

(** The values [json.load] can build, which are also the values the
    extractor appends.  A float keeps the decimal text it was read from or
    is printed as: no arithmetic on floats is followed here. *)
#[warnings="-register-all"]
Inductive pyval : Type :=
| PyNone
| PyBool (b : bool)
| PyInt (z : Z)
| PyFloat (text : string)
| PyStr (s : string)
| PyList (l : list pyval)
| PyDict (d : list (string * pyval)).

(** The exceptions that can travel through [main]. *)
Inductive pyexn : Type :=
| IPBlocked                  (* Exception("IP blocked"), line 73 *)
| HTTPError (status : Z)     (* raise_for_status, line 74 *)
| RequestException           (* session.get raised: connection, timeout, retries exhausted *)
| ExtractError               (* anything raised while reading the soup, lines 76-83 *)
| KeyError (k : string)
| TypeError
| ValueError
| AttributeError
| OSError
| JSONDecodeError.

(** A call returns or raises. *)
Inductive result (A : Type) : Type :=
| Ok (a : A)
| Raise (e : pyexn).
Arguments Ok {A} a.
Arguments Raise {A} e.

Definition bind {A B} (m : result A) (k : A -> result B) : result B :=
  match m with
  | Ok a => k a
  | Raise e => Raise e
  end.

(** Dictionaries keep insertion order; a key that is set again keeps its
    place. *)
Fixpoint dict_get (k : string) (d : list (string * pyval)) : option pyval :=
  match d with
  | [] => None
  | (k', v) :: d' => if String.eqb k k' then Some v else dict_get k d'
  end.

Fixpoint dict_set (k : string) (v : pyval) (d : list (string * pyval))
  : list (string * pyval) :=
  match d with
  | [] => [(k, v)]
  | (k', v') :: d' =>
      if String.eqb k k' then (k, v) :: d' else (k', v') :: dict_set k v d'
  end.

(** [o[k]] for a string key [k]. *)
Definition getitem (o : pyval) (k : string) : result pyval :=
  match o with
  | PyDict d =>
      match dict_get k d with
      | Some v => Ok v
      | None => Raise (KeyError k)
      end
  | _ => Raise TypeError
  end.

(** [bool(o)].  The zero test of a float is not followed: [None] there. *)
Definition truthy (o : pyval) : option bool :=
  match o with
  | PyNone => Some false
  | PyBool b => Some b
  | PyInt z => Some (negb (z =? 0))
  | PyFloat _ => None
  | PyStr s => Some (negb (String.eqb s ""))
  | PyList l => Some (match l with [] => false | _ => true end)
  | PyDict d => Some (match d with [] => false | _ => true end)
  end.

(** [o.extend(items)] and [o.append(item)] exist on lists only. *)
Definition extend (o : pyval) (items : list pyval) : result pyval :=
  match o with
  | PyList l => Ok (PyList (l ++ items))
  | _ => Raise AttributeError
  end.

Definition append (o : pyval) (item : pyval) : result pyval :=
  match o with
  | PyList l => Ok (PyList (l ++ [item]))
  | _ => Raise AttributeError
  end.

(** [o[k] = v] on the progress object, which is known to be a dict when
    this is used (the value was just read from it). *)
Definition setitem (o : pyval) (k : string) (v : pyval) : pyval :=
  match o with
  | PyDict d => PyDict (dict_set k v d)
  | _ => o
  end.

(** The integer an [int] or a [bool] counts as. *)
Definition as_int (o : pyval) : option Z :=
  match o with
  | PyInt z => Some z
  | PyBool b => Some (if b then 1 else 0)
  | _ => None
  end.

Definition is_float (o : pyval) : bool :=
  match o with PyFloat _ => true | _ => false end.

Definition is_number (o : pyval) : bool :=
  match o with PyInt _ | PyBool _ | PyFloat _ => true | _ => false end.

(** [max] of a list of integers, [None] on the empty list. *)
Definition py_max (l : list Z) : option Z :=
  match l with
  | [] => None
  | z :: zs => Some (fold_left Z.max zs z)
  end.

Fixpoint ints_of (l : list pyval) : list Z :=
  match l with
  | [] => []
  | o :: l' =>
      match as_int o with
      | Some z => z :: ints_of l'
      | None => ints_of l'
      end
  end.

(** [max(o) + 1].

    On a list: when an element is not a number, either a comparison inside
    [max] raises TypeError (a number against a non-number, [None] or a dict
    against anything) or [max] returns a non-number and the addition
    raises TypeError; when all are [int] or [bool] the result is an
    [int]; with a float among numbers the computation is not followed
    ([None]).  A string or a dict iterates to strings, and [str + 1]
    raises; the other values are not iterable; [max] of an empty sequence
    raises ValueError. *)
Definition max_plus_one (o : pyval) : option (result Z) :=
  match o with
  | PyList [] | PyStr EmptyString | PyDict [] => Some (Raise ValueError)
  | PyList l =>
      if negb (forallb is_number l) then Some (Raise TypeError)
      else if existsb is_float l then None
      else match py_max (ints_of l) with
           | Some m => Some (Ok (m + 1))
           | None => Some (Raise TypeError)
           end
  | _ => Some (Raise TypeError)
  end.

End Py.

Export Py.

(** ** Text *)

Module Text.

(** [str.lower] on the ASCII letters.  Text is held as its UTF-8 bytes;
    no character outside ASCII lowers to one of the letters of the
    marker searched below, so the search is unaffected. *)
Definition ascii_lower (c : ascii) : ascii :=
  let n := nat_of_ascii c in
  if ((65 <=? n) && (n <=? 90))%nat then ascii_of_nat (n + 32) else c.

Fixpoint lower (s : string) : string :=
  match s with
  | EmptyString => EmptyString
  | String c s' => String (ascii_lower c) (lower s')
  end.

(** [s.startswith(p)]. *)
Fixpoint startswith (p s : string) : bool :=
  match p, s with
  | EmptyString, _ => true
  | String c p', String d s' => if Ascii.eqb c d then startswith p' s' else false
  | String _ _, EmptyString => false
  end.

(** [sub in s]. *)
Fixpoint contains (sub s : string) : bool :=
  if startswith sub s then true
  else match s with
       | EmptyString => false
       | String _ s' => contains sub s'
       end.

Fixpoint drop (n : nat) (s : string) : string :=
  match n, s with
  | S n', String _ s' => drop n' s'
  | _, _ => s
  end.

End Text.

(** ** The [json] module, as far as the progress file needs it

    [loads] follows the decoder ([scanner.py], [decoder.py]) and
    [iterencode] the encoder with [indent=2], which is the pure Python
    generator whose chunks [json.dump] writes one by one. *)

Module Json.

Definition dquote : ascii := "034"%char.
Definition backslash : ascii := "092"%char.

Definition is_ws (c : ascii) : bool :=
  let n := nat_of_ascii c in
  ((n =? 32) || (n =? 9) || (n =? 10) || (n =? 13))%nat.

Fixpoint skip_ws (s : string) : string :=
  match s with
  | String c s' => if is_ws c then skip_ws s' else s
  | EmptyString => s
  end.

Definition is_digit (c : ascii) : bool :=
  let n := nat_of_ascii c in ((48 <=? n) && (n <=? 57))%nat.

(** The longest run of digits at the head of [s], and what follows. *)
Fixpoint span_digits (s : string) : string * string :=
  match s with
  | String c s' =>
      if is_digit c
      then let (ds, r) := span_digits s' in (String c ds, r)
      else (EmptyString, s)
  | EmptyString => (EmptyString, EmptyString)
  end.

Fixpoint digits_value (s : string) (acc : Z) : Z :=
  match s with
  | String c s' => digits_value s' (10 * acc + Z.of_nat (nat_of_ascii c - 48))
  | EmptyString => acc
  end.

(** NUMBER_RE: an optional minus sign, then 0 or a run of digits that
    does not start with 0, then an optional fraction (a dot and digits) and
    an optional exponent (e or E, an optional sign, digits); an integer
    part alone is an [int], anything longer a [float]. *)
Definition scan_number (s : string) : option (pyval * string) :=
  let (sign, s1) :=
    match s with
    | String c t => if Ascii.eqb c "-" then ("-", t) else ("", s)
    | EmptyString => ("", s)
    end in
  let int_part :=
    match s1 with
    | String c t =>
        if Ascii.eqb c "0" then Some ("0", t)
        else if is_digit c then Some (span_digits s1)
        else None
    | EmptyString => None
    end in
  match int_part with
  | None => None
  | Some (ds, r) =>
      let (frac, r1) :=
        match r with
        | String c t =>
            if Ascii.eqb c "." then
              let (fs, r') := span_digits t in
              match fs with
              | EmptyString => ("", r)
              | _ => (String c fs, r')
              end
            else ("", r)
        | EmptyString => ("", r)
        end in
      let (exp, r2) :=
        match r1 with
        | String c t =>
            if Ascii.eqb c "e" || Ascii.eqb c "E" then
              let (sg, t') :=
                match t with
                | String d u =>
                    if Ascii.eqb d "+" || Ascii.eqb d "-"
                    then (String d "", u) else ("", t)
                | EmptyString => ("", t)
                end in
              let (es, r') := span_digits t' in
              match es with
              | EmptyString => ("", r1)
              | _ => (String c (sg ++ es), r')
              end
            else ("", r1)
        | EmptyString => ("", r1)
        end in
      match frac, exp with
      | EmptyString, EmptyString =>
          let n := digits_value ds 0 in
          Some (PyInt (if String.eqb sign "-" then - n else n), r2)
      | _, _ => Some (PyFloat (sign ++ ds ++ frac ++ exp), r2)
      end
  end.

Definition hex_value (c : ascii) : option Z :=
  let n := nat_of_ascii c in
  if ((48 <=? n) && (n <=? 57))%nat then Some (Z.of_nat (n - 48))
  else if ((97 <=? n) && (n <=? 102))%nat then Some (Z.of_nat (n - 87))
  else if ((65 <=? n) && (n <=? 70))%nat then Some (Z.of_nat (n - 55))
  else None.

(** Four hexadecimal digits at the head of [s]. *)
Definition hex4 (s : string) : option (Z * string) :=
  match s with
  | String a (String b (String c (String d r))) =>
      match hex_value a, hex_value b, hex_value c, hex_value d with
      | Some x, Some y, Some z, Some w => Some (((x * 16 + y) * 16 + z) * 16 + w, r)
      | _, _, _, _ => None
      end
  | _ => None
  end.

Definition byte (z : Z) : ascii := ascii_of_nat (Z.to_nat z).

(** The UTF-8 bytes of a code point. *)
Definition utf8 (cp : Z) : string :=
  if cp <? 128 then String (byte cp) ""
  else if cp <? 2048 then
    String (byte (192 + cp / 64)) (String (byte (128 + cp mod 64)) "")
  else if cp <? 65536 then
    String (byte (224 + cp / 4096))
      (String (byte (128 + (cp / 64) mod 64)) (String (byte (128 + cp mod 64)) ""))
  else
    String (byte (240 + cp / 262144))
      (String (byte (128 + (cp / 4096) mod 64))
         (String (byte (128 + (cp / 64) mod 64)) (String (byte (128 + cp mod 64)) ""))).

(** BACKSLASH of [decoder.py]. *)
Definition unescape (c : ascii) : option ascii :=
  if Ascii.eqb c dquote then Some dquote
  else if Ascii.eqb c backslash then Some backslash
  else if Ascii.eqb c "/" then Some "/"%char
  else if Ascii.eqb c "b" then Some "008"%char
  else if Ascii.eqb c "f" then Some "012"%char
  else if Ascii.eqb c "n" then Some "010"%char
  else if Ascii.eqb c "r" then Some "013"%char
  else if Ascii.eqb c "t" then Some "009"%char
  else None.

Definition cons_text (p : string) (m : option (string * string))
  : option (string * string) :=
  match m with
  | Some (x, r) => Some (p ++ x, r)
  | None => None
  end.

(** [scanstring] in strict mode, from just after the opening quote. *)
Fixpoint scan_string (fuel : nat) (s : string) : option (string * string) :=
  match fuel with
  | O => None
  | S f =>
      match s with
      | EmptyString => None
      | String c t =>
          if Ascii.eqb c dquote then Some ("", t)
          else if Ascii.eqb c backslash then
            match t with
            | EmptyString => None
            | String e t' =>
                if Ascii.eqb e "u" then
                  match hex4 t' with
                  | None => None
                  | Some (u, t2) =>
                      let paired :=
                        if (55296 <=? u) && (u <=? 56319) then
                          match t2 with
                          | String b1 (String b2 t3) =>
                              if Ascii.eqb b1 backslash && Ascii.eqb b2 "u" then
                                match hex4 t3 with
                                | Some (u2, t4) =>
                                    if (56320 <=? u2) && (u2 <=? 57343)
                                    then Some (65536 + ((u - 55296) * 1024 + (u2 - 56320)), t4)
                                    else None
                                | None => None
                                end
                              else None
                          | _ => None
                          end
                        else None in
                      match paired with
                      | Some (cp, t4) => cons_text (utf8 cp) (scan_string f t4)
                      | None => cons_text (utf8 u) (scan_string f t2)
                      end
                  end
                else
                  match unescape e with
                  | Some ch => cons_text (String ch "") (scan_string f t')
                  | None => None
                  end
            end
          else if (nat_of_ascii c <? 32)%nat then None
          else cons_text (String c "") (scan_string f t)
      end
  end.

Definition after (lit : string) (v : pyval) (s : string) : option (pyval * string) :=
  if Text.startswith lit s then Some (v, Text.drop (String.length lit) s) else None.

Definition first_of {A} (a b : option A) : option A :=
  match a with Some _ => a | None => b end.

(** [scan_once]; [scan_items] is JSONArray from the first element on and
    [scan_members] JSONObject from the opening quote of a key on. *)
Fixpoint scan_value (fuel : nat) (s : string) : option (pyval * string) :=
  match fuel with
  | O => None
  | S f =>
      match s with
      | EmptyString => None
      | String c t =>
          if Ascii.eqb c dquote then
            match scan_string (S (String.length t)) t with
            | Some (x, r) => Some (PyStr x, r)
            | None => None
            end
          else if Ascii.eqb c "{" then
            match skip_ws t with
            | String d u =>
                if Ascii.eqb d "}" then Some (PyDict [], u)
                else scan_members f (skip_ws t) []
            | EmptyString => None
            end
          else if Ascii.eqb c "[" then
            match skip_ws t with
            | String d u =>
                if Ascii.eqb d "]" then Some (PyList [], u)
                else scan_items f (skip_ws t) []
            | EmptyString => None
            end
          else
            first_of (after "null" PyNone s)
           (first_of (after "true" (PyBool true) s)
           (first_of (after "false" (PyBool false) s)
           (first_of (scan_number s)
           (first_of (after "NaN" (PyFloat "NaN") s)
           (first_of (after "Infinity" (PyFloat "Infinity") s)
                     (after "-Infinity" (PyFloat "-Infinity") s))))))
      end
  end
with scan_items (fuel : nat) (s : string) (acc : list pyval)
  : option (pyval * string) :=
  match fuel with
  | O => None
  | S f =>
      match scan_value f s with
      | None => None
      | Some (v, r) =>
          match skip_ws r with
          | String c t =>
              if Ascii.eqb c "]" then Some (PyList (rev (v :: acc)), t)
              else if Ascii.eqb c "," then scan_items f (skip_ws t) (v :: acc)
              else None
          | EmptyString => None
          end
      end
  end
with scan_members (fuel : nat) (s : string) (acc : list (string * pyval))
  : option (pyval * string) :=
  match fuel with
  | O => None
  | S f =>
      match s with
      | EmptyString => None
      | String q t =>
          if negb (Ascii.eqb q dquote) then None
          else
            match scan_string (S (String.length t)) t with
            | None => None
            | Some (k, r) =>
                match skip_ws r with
                | String c r1 =>
                    if negb (Ascii.eqb c ":") then None
                    else
                      match scan_value f (skip_ws r1) with
                      | None => None
                      | Some (v, r2) =>
                          match skip_ws r2 with
                          | String e r3 =>
                              if Ascii.eqb e "}" then Some (PyDict (dict_set k v acc), r3)
                              else if Ascii.eqb e ","
                              then scan_members f (skip_ws r3) (dict_set k v acc)
                              else None
                          | EmptyString => None
                          end
                      end
                | EmptyString => None
                end
            end
      end
  end.

(** [json.loads]: one value between optional white space, and nothing
    after it; [None] stands for JSONDecodeError. *)
Definition loads (s : string) : option pyval :=
  match scan_value (2 * String.length s + 2) (skip_ws s) with
  | Some (v, r) =>
      match skip_ws r with
      | EmptyString => Some v
      | String _ _ => None
      end
  | None => None
  end.

(** *** Encoder *)

Definition hex_digit (z : Z) : ascii :=
  if z <? 10 then byte (48 + z) else byte (87 + z).

(** [\uXXXX] with four lower-case hexadecimal digits. *)
Definition u_escape (u : Z) : string :=
  String backslash
    (String "u"
       (String (hex_digit (u / 4096))
          (String (hex_digit ((u / 256) mod 16))
             (String (hex_digit ((u / 16) mod 16))
                (String (hex_digit (u mod 16)) ""))))).

Definition is_cont (c : ascii) : bool :=
  let n := nat_of_ascii c in ((128 <=? n) && (n <? 192))%nat.

Definition low6 (c : ascii) : Z := Z.of_nat (nat_of_ascii c) mod 64.

(** The code point at the head of UTF-8 text, and the bytes it took. *)
Definition decode_head (c : ascii) (t : string) : Z * nat :=
  let n := Z.of_nat (nat_of_ascii c) in
  match t with
  | String c1 t1 =>
      if (192 <=? n) && (n <? 224) && is_cont c1
      then ((n - 192) * 64 + low6 c1, 2%nat)
      else
        match t1 with
        | String c2 t2 =>
            if (224 <=? n) && (n <? 240) && is_cont c1 && is_cont c2
            then (((n - 224) * 64 + low6 c1) * 64 + low6 c2, 3%nat)
            else
              match t2 with
              | String c3 _ =>
                  if (240 <=? n) && is_cont c1 && is_cont c2 && is_cont c3
                  then ((((n - 240) * 64 + low6 c1) * 64 + low6 c2) * 64 + low6 c3, 4%nat)
                  else (n, 1%nat)
              | EmptyString => (n, 1%nat)
              end
        | EmptyString => (n, 1%nat)
        end
  | EmptyString => (n, 1%nat)
  end.

(** ESCAPE_DCT and the replacement of [py_encode_basestring_ascii]. *)
Definition escape_cp (cp : Z) : string :=
  if cp =? 34 then String backslash (String dquote "")
  else if cp =? 92 then String backslash (String backslash "")
  else if cp =? 10 then String backslash "n"
  else if cp =? 13 then String backslash "r"
  else if cp =? 9 then String backslash "t"
  else if cp =? 12 then String backslash "f"
  else if cp =? 8 then String backslash "b"
  else if (32 <=? cp) && (cp <=? 126) then String (byte cp) ""
  else if cp <? 65536 then u_escape cp
  else
    let v := cp - 65536 in
    u_escape (55296 + (v / 1024) mod 1024) ++ u_escape (56320 + v mod 1024).

Fixpoint escape_text (fuel : nat) (s : string) : string :=
  match fuel with
  | O => ""
  | S f =>
      match s with
      | EmptyString => ""
      | String c t =>
          let (cp, used) := decode_head c t in
          escape_cp cp ++ escape_text f (Text.drop (used - 1) t)
      end
  end.

(** [encoder(s)] with [ensure_ascii=True]. *)
Definition encode_str (s : string) : string :=
  String dquote (escape_text (String.length s) s ++ String dquote "").

Definition int_repr (z : Z) : string := NilZero.string_of_int (Z.to_int z).

(** The text of a value that is written in one piece. *)
Definition scalar (o : pyval) : option string :=
  match o with
  | PyNone => Some "null"
  | PyBool true => Some "true"
  | PyBool false => Some "false"
  | PyInt z => Some (int_repr z)
  | PyFloat t => Some t
  | PyStr s => Some (encode_str s)
  | PyList _ | PyDict _ => None
  end.

Fixpoint spaces (n : nat) : string :=
  match n with
  | O => ""
  | S n' => String " " (spaces n')
  end.

(** ['\n' + indent * level] with [indent = 2]. *)
Definition newline_indent (level : nat) : string :=
  String "010"%char (spaces (2 * level)).

(** [_iterencode] of [_make_iterencode]: the chunks, in the order they are
    yielded. *)
Fixpoint iterencode (level : nat) (o : pyval) {struct o} : list string :=
  match o with
  | PyList [] => ["[]"]
  | PyList l =>
      ((fix items (first : bool) (l : list pyval) {struct l} : list string :=
         match l with
         | [] => []
         | v :: l' =>
             let buf :=
               (if first then "[" ++ newline_indent (S level)
                else "," ++ newline_indent (S level))%string in
             (match scalar v with
              | Some t => [(buf ++ t)%string]
              | None => buf :: iterencode (S level) v
              end ++ items false l')%list
         end) true l
      ++ [newline_indent level; "]"])%list
  | PyDict [] => ["{}"]
  | PyDict d =>
      "{" :: newline_indent (S level) ::
      ((fix members (first : bool) (d : list (string * pyval)) {struct d}
         : list string :=
         match d with
         | [] => []
         | (k, v) :: d' =>
             ((if first then [] else [("," ++ newline_indent (S level))%string])
              ++ [encode_str k; ": "]
              ++ match scalar v with
                 | Some t => [t]
                 | None => iterencode (S level) v
                 end
              ++ members false d')%list
         end) true d
      ++ [newline_indent level; "}"])%list
  | _ =>
      match scalar o with
      | Some t => [t]
      | None => []
      end
  end.

(** What the file holds once every chunk is written. *)
Definition dumps (o : pyval) : string := String.concat "" (iterencode 0 o).

End Json.

(** ** Sessions

    [requests.Session] as far as the scripts configure it: the retry
    policy handed to the mounted adapter and the session headers.  The
    headers of a fresh session are the library's and come in as
    [defaults]; header names compare without regard to case. *)

Record Retry : Type := {
  total : Z;
  backoff_factor : Z;
  status_forcelist : list Z;
  allowed_methods : list string
}.

Record Session : Type := {
  max_retries : Retry;
  headers : list (string * string)
}.

Fixpoint header_get (k : string) (hs : list (string * string)) : option string :=
  match hs with
  | [] => None
  | (k', v) :: hs' =>
      if String.eqb (Text.lower k) (Text.lower k') then Some v
      else header_get k hs'
  end.

Fixpoint header_set (k v : string) (hs : list (string * string))
  : list (string * string) :=
  match hs with
  | [] => [(k, v)]
  | (k', v') :: hs' =>
      if String.eqb (Text.lower k) (Text.lower k') then (k, v) :: hs'
      else (k', v') :: header_set k v hs'
  end.

(** What goes on the wire for [session.get(url, timeout=10)]: the session
    headers, nothing being given per call. *)
Record request : Type := {
  req_url : string;
  req_headers : list (string * string)
}.

Definition prepare (s : Session) (url : string) : request :=
  {| req_url := url; req_headers := headers s |}.

Record response : Type := {
  status_code : Z;
  text : string
}.

(** [ex1_books]: [create_session_with_retries], lines 19-27. *)
Module Books.

Definition create_session_with_retries (total backoff_factor : Z)
    (defaults : list (string * string)) : Session :=
  {| max_retries :=
       {| total := total;
          backoff_factor := backoff_factor;
          status_forcelist := [429; 500; 502; 503; 504];
          allowed_methods := ["GET"; "POST"] |};
     headers :=
       header_set "User-Agent" "Mozilla/5.0 (compatible; lab-scraper/1.0)" defaults |}.

(** The defaults of the signature: [total=3, backoff_factor=1]. *)
Definition default_session := create_session_with_retries 3 1.

End Books.

(** [ex2_quotes]: [load_cache], lines 33-40; [None] is a missing file and
    the bare [except] turns a failed decoding into the empty dict. *)
Module Quotes.

Definition load_cache (file : option string) : pyval :=
  match file with
  | Some content =>
      match Json.loads content with
      | Some v => v
      | None => PyDict []
      end
  | None => PyDict []
  end.

End Quotes.

(** ** The resilient scraper, [ex6_resilient_scraper/main.py] *)

Definition BASE : string := "https://books.toscrape.com/".

(** [session_retry], lines 30-38. *)
Definition session_retry (defaults : list (string * string)) : Session :=
  {| max_retries :=
       {| total := 5;
          backoff_factor := 1;
          status_forcelist := [429; 500; 502; 503; 504];
          allowed_methods := ["GET"] |};
     headers := defaults |}.

(** A fault of the disk during a save.  The file operations of a save are
    the opening and then the chunk writes.  [Raised k]: [k] operations
    happen and the next one raises OSError out of the save.  [Swallowed k]:
    the file is opened and [json.dump] returns with its text still in the
    buffer of the file object, which the script never closes; when the
    object is finalised only [k] chunks reach the file, and the error of
    that flush is not raised: the save returns normally. *)
Inductive fault : Type :=
| Raised (k : nat)
| Swallowed (k : nat).

(** What the script does not own: the headers of a fresh session, the
    outcome of the n-th [session.get] (the adapter's retries included, an
    exception when it gives up), the reading of a page body by
    BeautifulSoup (lines 76-83: the books and the [href] of the next link,
    or an exception), [urljoin] (what it returns, and on which link of a
    page it raises ValueError instead, as it does on a malformed host such
    as "//["), and the faults of the disk: [save_fault n] is the fault met
    by the n-th [save_progress], if any. *)
Record world : Type := {
  default_headers : list (string * string);
  send : nat -> request -> pyexn + response;
  extract : string -> pyexn + (list pyval * option string);
  urljoin : string -> string -> string;
  urljoin_raises : string -> string -> bool;
  save_fault : nat -> option fault
}.

(** *** IP freeze detection, lines 58-63 *)

(** [is_ip_blocked]. *)
Definition is_ip_blocked (r : response) : bool :=
  if status_code r =? 429 then true
  else if Text.contains "captcha" (Text.lower (text r)) then true
  else false.

(** *** Progress, lines 47-53 *)

Definition empty_progress : pyval :=
  PyDict [("done_pages", PyList []); ("books", PyList [])].

(** [load_progress]; the file is [None] when it does not exist. *)
Definition load_progress (file : option string) : result pyval :=
  match file with
  | Some content =>
      match Json.loads content with
      | Some v => Ok v
      | None => Raise JSONDecodeError
      end
  | None => Ok empty_progress
  end.

(** The progress file after [k] operations of a save over [old]:
    [open(PROGRESS_FILE, "w")] empties the file, then each chunk of the
    encoder is written behind the others. *)
Definition written (k : nat) (chunks : list string) (old : option string)
  : option string :=
  match k with
  | O => old
  | S j => Some (String.concat "" (firstn j chunks))
  end.

(** [save_progress] under a fault of the disk, if any: what the call
    does, and the file it leaves. *)
Definition save_progress (f : option fault) (p : pyval) (old : option string)
  : result unit * option string :=
  let chunks := Json.iterencode 0 p in
  match f with
  | Some (Raised k) =>
      if (k <=? List.length chunks)%nat
      then (Raise OSError, written k chunks old)
      else (Ok tt, Some (Json.dumps p))
  | Some (Swallowed k) => (Ok tt, written (S k) chunks old)
  | None => (Ok tt, Some (Json.dumps p))
  end.

(** *** Scraping one page, lines 68-83 *)

(** What a run leaves behind, in order. *)
Inductive event : Type :=
| Scraping (page : Z) (url : string)   (* logging.info, line 104 *)
| Get (r : request)                    (* session.get, line 70 *)
| Blocked                              (* logging.error, line 72 *)
| Erreur (e : pyexn).                  (* logging.error and sleep(10), lines 118-119 *)

(** [Response.raise_for_status]. *)
Definition raise_for_status (r : response) : result unit :=
  if (400 <=? status_code r) && (status_code r <? 600)
  then Raise (HTTPError (status_code r))
  else Ok tt.

Definition of_sum {A} (x : pyexn + A) : result A :=
  match x with
  | inl e => Raise e
  | inr a => Ok a
  end.

(** [scrape_page] as the [n]-th request of the run. *)
Definition scrape_page (w : world) (session : Session) (n : nat) (url : string)
  : list event * result (list pyval * option string) :=
  let rq := prepare session url in
  match send w n rq with
  | inl e => ([Get rq], Raise e)
  | inr r =>
      if is_ip_blocked r then ([Get rq; Blocked], Raise IPBlocked)
      else
        match raise_for_status r with
        | Raise e => ([Get rq], Raise e)
        | Ok _ => ([Get rq], of_sum (extract w (text r)))
        end
  end.

(** *** The loop, lines 93-120 *)

Definition page_path (page_index : Z) : string :=
  "catalogue/page-" ++ Json.int_repr page_index ++ ".html".

(** Lines 95-100: where to start.  [None] when the answer hangs on float
    arithmetic.  The [urljoin] of line 100 joins the constant [BASE] and a
    path made of a page number: it has no host part to reject and
    returns. *)
Definition resume (w : world) (progress : pyval) : option (result (string * Z)) :=
  match getitem progress "done_pages" with
  | Raise e => Some (Raise e)
  | Ok done =>
      match truthy done with
      | None => None
      | Some false => Some (Ok (BASE, 1))
      | Some true =>
          match max_plus_one done with
          | None => None
          | Some (Raise e) => Some (Raise e)
          | Some (Ok page_index) =>
              Some (Ok (urljoin w BASE (page_path page_index), page_index))
          end
      end
  end.

Record state : Type := {
  progress : pyval;
  current : string;
  page_index : Z;
  requests : nat;            (* calls of session.get so far *)
  saves : nat;               (* calls of save_progress so far *)
  disk : option string;      (* PROGRESS_FILE *)
  trace : list event
}.

(** [not next_rel]: no link, or an empty [href]. *)
Definition no_next (next_rel : option string) : bool :=
  match next_rel with
  | None => true
  | Some h => String.eqb h ""
  end.

(** The [except Exception] branch, lines 117-120. *)
Definition handler (e : pyexn) (st : state) : state * bool :=
  ({| progress := progress st; current := current st;
      page_index := page_index st; requests := requests st;
      saves := saves st; disk := disk st;
      trace := trace st ++ [Erreur e] |}, false).

(** One turn of [while True]; the boolean tells whether it left by
    [break]. *)
Definition iteration (w : world) (session : Session) (st : state) : state * bool :=
  let (evs, scraped) := scrape_page w session (requests st) (current st) in
  let st1 :=
    {| progress := progress st; current := current st;
       page_index := page_index st; requests := S (requests st);
       saves := saves st; disk := disk st;
       trace := trace st ++ Scraping (page_index st) (current st) :: evs |} in
  match scraped with
  | Raise e => handler e st1
  | Ok (books, next_rel) =>
      (* progress["books"].extend(books) *)
      match bind (getitem (progress st1) "books") (fun b => extend b books) with
      | Raise e => handler e st1
      | Ok b' =>
          let p1 := setitem (progress st1) "books" b' in
          (* progress["done_pages"].append(page_index) *)
          match bind (getitem p1 "done_pages")
                  (fun d => append d (PyInt (page_index st1))) with
          | Raise e =>
              handler e
                {| progress := p1; current := current st1;
                   page_index := page_index st1; requests := requests st1;
                   saves := saves st1; disk := disk st1; trace := trace st1 |}
          | Ok d' =>
              let p2 := setitem p1 "done_pages" d' in
              let (saved, disk') :=
                save_progress (save_fault w (saves st1)) p2 (disk st1) in
              let st2 :=
                {| progress := p2; current := current st1;
                   page_index := page_index st1; requests := requests st1;
                   saves := S (saves st1); disk := disk'; trace := trace st1 |} in
              match saved with
              | Raise e => handler e st2
              | Ok _ =>
                  if no_next next_rel then (st2, true)
                  else
                    let h := match next_rel with Some h => h | None => "" end in
                    (* current = urljoin(current, next_rel), line 114 *)
                    if urljoin_raises w (current st1) h
                    then handler ValueError st2
                    else
                      ({| progress := p2;
                          current := urljoin w (current st1) h;
                          page_index := page_index st1 + 1;
                          requests := requests st1; saves := saves st2;
                          disk := disk'; trace := trace st1 |}, false)
              end
          end
      end
  end.

(** [while True] for at most [fuel] turns: the state at the [break], or
    the state the loop is still running in. *)
Fixpoint loop (w : world) (session : Session) (fuel : nat) (st : state)
  : state * bool :=
  match fuel with
  | O => (st, false)
  | S f =>
      let (st', left) := iteration w session st in
      if left then (st', true) else loop w session f st'
  end.

(** How [main] stands after at most [fuel] turns of its loop. *)
Inductive run : Type :=
| Crashed (e : pyexn) (tr : list event)     (* an exception left main *)
| Unfollowed                                (* float page numbers *)
| Looping (st : state)                      (* still inside while True *)
| Terminated (st : state) (output : pyval). (* books_resilient.json written *)

(** [main], lines 86-123, with the progress file it finds. *)
Definition main (w : world) (fuel : nat) (file : option string) : run :=
  let session := session_retry (default_headers w) in
  match load_progress file with
  | Raise e => Crashed e []
  | Ok progress0 =>
      match resume w progress0 with
      | None => Unfollowed
      | Some (Raise e) => Crashed e []
      | Some (Ok (current0, page_index0)) =>
          let st0 :=
            {| progress := progress0; current := current0;
               page_index := page_index0; requests := O; saves := O;
               disk := file; trace := [] |} in
          match loop w session fuel st0 with
          | (st, false) => Looping st
          | (st, true) =>
              match getitem (progress st) "books" with
              | Ok books => Terminated st books
              | Raise e => Crashed e (trace st)
              end
          end
      end
  end.

(** ** The books scraper, [ex1_books/main.py] *)

Module BooksCrawl.

(** RATING_MAP, lines 32-34. *)
Definition RATING_MAP : list (string * Z) :=
  [("One", 1); ("Two", 2); ("Three", 3); ("Four", 4); ("Five", 5)].

Fixpoint lookup (k : string) (m : list (string * Z)) : option Z :=
  match m with
  | [] => None
  | (k', v) :: m' => if String.eqb k k' then Some v else lookup k m'
  end.

(** [parse_rating], lines 48-54, on [tag.get("class", [])]. *)
Fixpoint parse_rating (classes : list string) : option Z :=
  match classes with
  | [] => None
  | cls :: rest =>
      match lookup cls RATING_MAP with
      | Some r => Some r
      | None => parse_rating rest
      end
  end.

(** The dict [scrape_book_detail] builds, lines 74. *)
Record detail : Type := {
  description : string;
  category : string;
  stock : Z;
  image_url : string
}.

(** The fallback of line 117. *)
Definition fallback : detail :=
  {| description := ""; category := ""; stock := 0; image_url := "" |}.

(** What BeautifulSoup finds in one [.product_pod], lines 101-107: the
    stripped title and the [href] of its [h3 a] link, or the exception
    their lookup raises; the price [parse_price] made of the price tag
    (a float, or [None]); and the classes of the tag handed to
    [parse_rating]. *)
Record pod : Type := {
  pod_link : pyexn + (string * string);
  pod_price : pyval;
  pod_classes : list string
}.

(** What the script does not own: the headers of a fresh session, the
    outcome of the n-th [session.get], the reading of a listing body (its
    pods and the [href] of its next button), the reading of a detail body
    (lines 61-74, the joining of the image address included: what it
    raises is raised inside the [try] of line 110), [urljoin] on the links
    of a listing (what it returns, and on which link it raises ValueError
    instead), and the clock. *)
Record site : Type := {
  fresh_headers : list (string * string);
  answer : nat -> request -> pyexn + response;
  read_listing : string -> list pod * option string;
  read_detail : string -> string -> pyexn + detail;
  join : string -> string -> string;
  join_raises : string -> string -> bool;
  utcnow : string
}.

(** [scrape_book_detail], lines 56-74, as the [n]-th request: [None] on
    404, the detail otherwise, or what was raised. *)
Definition scrape_book_detail (w : site) (session : Session) (n : nat)
    (detail_url : string) : result (option detail) :=
  match answer w n (prepare session detail_url) with
  | inl e => Raise e
  | inr resp =>
      if status_code resp =? 404 then Ok None
      else
        match raise_for_status resp with
        | Raise e => Raise e
        | Ok _ =>
            match read_detail w detail_url (text resp) with
            | inl e => Raise e
            | inr d => Ok (Some d)
            end
        end
  end.

(** The dict of lines 118-127. *)
Definition book_of (title url : string) (price : pyval) (rating : option Z)
    (d : detail) : pyval :=
  PyDict [("title", PyStr title);
          ("url", PyStr url);
          ("price", price);
          ("rating", match rating with Some r => PyInt r | None => PyNone end);
          ("category", PyStr (category d));
          ("description", PyStr (description d));
          ("stock", PyInt (stock d));
          ("image_url", PyStr (image_url d))].

(** The [for pod in pods] loop, lines 100-128: the books so far, the
    count of requests and the requests sent, threaded through. *)
Fixpoint each_pod (w : site) (session : Session) (current : string)
    (pods : list pod) (books : list pyval) (n : nat) (sent : list request)
  : result (list pyval) * nat * list request :=
  match pods with
  | [] => (Ok books, n, sent)
  | p :: rest =>
      match pod_link p with
      | inl e => (Raise e, n, sent)
      | inr (title, relative) =>
          (* book_url = urljoin(current, relative), line 104, outside the try *)
          if join_raises w current relative then (Raise ValueError, n, sent)
          else
            let book_url := join w current relative in
            let rating := parse_rating (pod_classes p) in
            let d :=
              match scrape_book_detail w session n book_url with
              | Ok (Some d) => d
              | Ok None => fallback      (* 404 *)
              | Raise _ => fallback      (* except Exception, lines 112-114 *)
              end in
            each_pod w session current rest
              (books ++ [book_of title book_url (pod_price p) rating d])
              (S n) (sent ++ [prepare session book_url])
      end
  end.

Record state : Type := {
  books : list pyval;
  current : string;
  page_index : Z;
  requests : nat;
  sent : list request
}.

(** The payload of line 144. *)
Definition payload (w : site) (books : list pyval) : pyval :=
  PyDict [("timestamp", PyStr (utcnow w));
          ("count", PyInt (Z.of_nat (List.length books)));
          ("books", PyList books)].

(** How [scrape] stands after at most [fuel] listing pages. *)
Inductive run : Type :=
| Crashed (e : pyexn) (sent : list request)   (* an exception left scrape *)
| Running (st : state)                        (* still inside while True *)
| Saved (st : state) (output : pyval).        (* books_<timestamp>.json written *)

(** [while True], lines 88-137, and the saving that follows. *)
Fixpoint crawl (w : site) (session : Session) (fuel : nat) (st : state) : run :=
  match fuel with
  | O => Running st
  | S f =>
      let rq := prepare session (current st) in
      match answer w (requests st) rq with
      | inl e => Crashed e (sent st ++ [rq])
      | inr resp =>
          let st1 :=
            {| books := books st; current := current st;
               page_index := page_index st; requests := S (requests st);
               sent := sent st ++ [rq] |} in
          if status_code resp =? 404 then Saved st1 (payload w (books st1))
          else
            match raise_for_status resp with
            | Raise e => Crashed e (sent st1)
            | Ok _ =>
                let (pods, next) := read_listing w (text resp) in
                match each_pod w session (current st1) pods (books st1)
                        (requests st1) (sent st1) with
                | (Raise e, _, sent') => Crashed e sent'
                | (Ok books', n', sent') =>
                    let st2 :=
                      {| books := books'; current := current st1;
                         page_index := page_index st1; requests := n';
                         sent := sent' |} in
                    match next with
                    | Some href =>
                        if String.eqb href "" then Saved st2 (payload w books')
                        else if join_raises w (current st1) href   (* line 132 *)
                        then Crashed ValueError sent'
                        else
                          crawl w session f
                            {| books := books';
                               current := join w (current st1) href;
                               page_index := page_index st1 + 1;
                               requests := n'; sent := sent' |}
                    | None => Saved st2 (payload w books')
                    end
                end
            end
      end
  end.

Definition BASE : string := "https://books.toscrape.com/".

(** [scrape], lines 76-147. *)
Definition scrape (w : site) (fuel : nat) : run :=
  crawl w (Books.default_session (fresh_headers w)) fuel
    {| books := []; current := BASE; page_index := 1;
       requests := O; sent := [] |}.

(** The requests a run has sent. *)
Definition sent_of (r : run) : list request :=
  match r with
  | Crashed _ sent => sent
  | Running st | Saved st _ => BooksCrawl.sent st
  end.

(** The title a pod gives to its book. *)
Definition title_of (p : pod) : option pyval :=
  match pod_link p with
  | inr (title, _) => Some (PyStr title)
  | inl _ => None
  end.

Definition key_of (k : string) (book : pyval) : option pyval :=
  match book with
  | PyDict d => dict_get k d
  | _ => None
  end.

End BooksCrawl.

(** ** What the properties speak of *)

(** A case-insensitive occurrence of [marker] (given in lower case) in
    [body]: some substring of [body] lowers to [marker]. *)
Definition occurs_ci (marker body : string) : Prop :=
  exists pre m post, body = pre ++ m ++ post /\ Text.lower m = marker.

Definition run_state (r : run) : option state :=
  match r with
  | Looping st | Terminated st _ => Some st
  | Crashed _ _ | Unfollowed => None
  end.

Definition is_scraping (ev : event) : bool :=
  match ev with Scraping _ _ => true | _ => false end.

Definition is_get (ev : event) : bool :=
  match ev with Get _ => true | _ => false end.

(** The pages logged by a trace. *)
Fixpoint pages_of (tr : list event) : list Z :=
  match tr with
  | [] => []
  | Scraping i _ :: tr' => i :: pages_of tr'
  | _ :: tr' => pages_of tr'
  end.

(** The requests sent by a trace. *)
Fixpoint gets (tr : list event) : list request :=
  match tr with
  | [] => []
  | Get rq :: tr' => rq :: gets tr'
  | _ :: tr' => gets tr'
  end.


(** The progress file a save leaves when the process dies after [k] of
    its file operations. *)
Definition interrupted_save (k : nat) (p : pyval) (old : option string)
  : option string :=
  written k (Json.iterencode 0 p) old.

(** Atomic persistence: however far a save got before the process died,
    the file is the one found before the save or the complete new one. *)
Definition atomic_save (p : pyval) (old : option string) : Prop :=
  forall k,
    interrupted_save k p old = old \/
    interrupted_save k p old = Some (Json.dumps p).

(** Block abort: a request answered by a blocked response is the last
    request of the run. *)
Definition block_abort (w : world) (file : option string) : Prop :=
  forall fuel st n rq r,
    run_state (main w fuel file) = Some st ->
    nth_error (gets (trace st)) n = Some rq ->
    send w n rq = inr r ->
    is_ip_blocked r = true ->
    List.length (gets (trace st)) = S n.

(** A decoded progress file with the two keys of the schema. *)
Definition has_schema (v : pyval) : Prop :=
  exists d, v = PyDict d /\
            dict_get "done_pages" d <> None /\ dict_get "books" d <> None.

(** Unvalidated schema, as claimed: any decoded progress file without the
    two keys makes [main] die of KeyError or TypeError before a request. *)
Definition schema_crash (w : world) : Prop :=
  forall content v fuel,
    Json.loads content = Some v ->
    ~ has_schema v ->
    exists e, (e = TypeError \/ exists k, e = KeyError k) /\
              main w fuel (Some content) = Crashed e [].

(** The state after a turn in which [scrape_page] left the events [evs]
    and raised [e]: one more request made, the error logged, and nothing
    else changed. *)
Definition retried (st : state) (evs : list event) (e : pyexn) : state :=
  {| progress := progress st; current := current st;
     page_index := page_index st; requests := S (requests st);
     saves := saves st; disk := disk st;
     trace := trace st ++ Scraping (page_index st) (current st) :: evs ++ [Erreur e] |}.

(** ** A stub site

    Three listing pages of two books each, linked as on
    books.toscrape.com; every other address answers 404. *)

Module Stub.

Fixpoint has_slash (s : string) : bool :=
  match s with
  | EmptyString => false
  | String c t => if Ascii.eqb c "/" then true else has_slash t
  end.

(** The base address up to its last slash. *)
Fixpoint dir (s : string) : string :=
  match s with
  | EmptyString => ""
  | String c t =>
      if has_slash t then String c (dir t)
      else if Ascii.eqb c "/" then "/" else ""
  end.

(** [urljoin] on the references met here: a relative path without dot
    segments replaces what follows the last slash of the base, and an
    empty reference gives the base back. *)
Definition join (base rel : string) : string :=
  if String.eqb rel "" then base else dir base ++ rel.

Definition listing (k : Z) : string := "listing " ++ Json.int_repr k.

Definition serve (url : string) : response :=
  if String.eqb url BASE then {| status_code := 200; text := listing 1 |}
  else if String.eqb url (BASE ++ "catalogue/page-2.html")
  then {| status_code := 200; text := listing 2 |}
  else if String.eqb url (BASE ++ "catalogue/page-3.html")
  then {| status_code := 200; text := listing 3 |}
  else {| status_code := 404; text := "Not Found" |}.

Definition book (title price : string) : pyval :=
  PyDict [("title", PyStr title); ("price", PyFloat price)].

Definition books_of (k : Z) : list pyval :=
  [book ("Book " ++ Json.int_repr k ++ "a") "51.77";
   book ("Book " ++ Json.int_repr k ++ "b") "53.74"].

Definition read (body : string) : pyexn + (list pyval * option string) :=
  if String.eqb body (listing 1)
  then inr (books_of 1, Some "catalogue/page-2.html")
  else if String.eqb body (listing 2) then inr (books_of 2, Some "page-3.html")
  else if String.eqb body (listing 3) then inr (books_of 3, None)
  else inr ([], None).

Definition library_headers : list (string * string) :=
  [("User-Agent", "python-requests/2.31.0");
   ("Accept-Encoding", "gzip, deflate");
   ("Accept", "*/*");
   ("Connection", "keep-alive")].

(** The site on a healthy disk. *)
Definition site : world :=
  {| default_headers := library_headers;
     send := fun _ rq => inr (serve (req_url rq));
     extract := read;
     urljoin := join;
     urljoin_raises := fun _ _ => false;
     save_fault := fun _ => None |}.

(** The same site when the first opening of the progress file fails. *)
Definition site_disk_fault : world :=
  {| default_headers := library_headers;
     send := fun _ rq => inr (serve (req_url rq));
     extract := read;
     urljoin := join;
     urljoin_raises := fun _ _ => false;
     save_fault := fun n => match n with O => Some (Raised O) | S _ => None end |}.

(** The same site when the flush of the third save fails after five
    chunks, behind the back of the script. *)
Definition site_swallowed_fault : world :=
  {| default_headers := library_headers;
     send := fun _ rq => inr (serve (req_url rq));
     extract := read;
     urljoin := join;
     urljoin_raises := fun _ _ => false;
     save_fault := fun n =>
       match n with
       | S (S O) => Some (Swallowed 5)
       | _ => None
       end |}.

(** A site whose first page links to a next page under an address that
    [urljoin] rejects. *)
Definition site_bad_link : world :=
  {| default_headers := library_headers;
     send := fun _ rq => inr (serve (req_url rq));
     extract := fun body =>
       if String.eqb body (listing 1) then inr (books_of 1, Some "//[")
       else inr ([], None);
     urljoin := join;
     urljoin_raises := fun _ h => String.eqb h "//[";
     save_fault := fun _ => None |}.

(** The same site answering its first request with a challenge page. *)
Definition challenge : response :=
  {| status_code := 200; text := "<h1>Please solve the CAPTCHA</h1>" |}.

Definition site_block_once : world :=
  {| default_headers := library_headers;
     send := fun n rq =>
       match n with
       | O => inr challenge
       | S _ => inr (serve (req_url rq))
       end;
     extract := read;
     urljoin := join;
     urljoin_raises := fun _ _ => false;
     save_fault := fun _ => None |}.

(** The site when the network is down: every request raises. *)
Definition site_down : world :=
  {| default_headers := library_headers;
     send := fun _ _ => inl RequestException;
     extract := read;
     urljoin := join;
     urljoin_raises := fun _ _ => false;
     save_fault := fun _ => None |}.

(** Progress with the first [n] pages done. *)
Definition progress_upto (n : nat) : pyval :=
  PyDict [("done_pages", PyList (map (fun k => PyInt (Z.of_nat k)) (seq 1 n)));
          ("books", PyList (flat_map (fun k => books_of (Z.of_nat k)) (seq 1 n)))].

Definition file_upto (n : nat) : option string :=
  Some (Json.dumps (progress_upto n)).

(** A progress file holding only the list of done pages. *)
Definition file_without_books : option string :=
  Some (Json.dumps (PyDict [("done_pages", PyList [])])).

(** What is left of the progress file when the save of the second page
    dies after five operations. *)
Definition file_torn : option string :=
  interrupted_save 5 (progress_upto 2) (file_upto 1).

End Stub.

(** ** A stub shop for the books scraper

    One listing of two books whose next button leads to an address that
    answers 404; the first book has a detail page, the second one's
    detail fails. *)

Module StubShop.

Definition pods : list BooksCrawl.pod :=
  [{| BooksCrawl.pod_link := inr ("A Light in the Attic", "catalogue/a-light/index.html");
      BooksCrawl.pod_price := PyFloat "51.77";
      BooksCrawl.pod_classes := ["star-rating"; "Three"] |};
   {| BooksCrawl.pod_link := inr ("Tipping the Velvet", "catalogue/tipping/index.html");
      BooksCrawl.pod_price := PyNone;
      BooksCrawl.pod_classes := ["product_pod"] |}].

Definition serve (url : string) : response :=
  if String.eqb url BooksCrawl.BASE then {| status_code := 200; text := "listing" |}
  else if String.eqb url (BooksCrawl.BASE ++ "catalogue/a-light/index.html")
  then {| status_code := 200; text := "detail" |}
  else if String.eqb url (BooksCrawl.BASE ++ "catalogue/tipping/index.html")
  then {| status_code := 500; text := "Internal Server Error" |}
  else {| status_code := 404; text := "Not Found" |}.

Definition shop : BooksCrawl.site :=
  {| BooksCrawl.fresh_headers := Stub.library_headers;
     BooksCrawl.answer := fun _ rq => inr (serve (req_url rq));
     BooksCrawl.read_listing := fun body =>
       if String.eqb body "listing" then (pods, Some "catalogue/page-2.html")
       else ([], None);
     BooksCrawl.read_detail := fun _ _ =>
       inr {| BooksCrawl.description := "Poems";
              BooksCrawl.category := "Poetry";
              BooksCrawl.stock := 22;
              BooksCrawl.image_url := "https://books.toscrape.com/media/a.jpg" |};
     BooksCrawl.join := Stub.join;
     BooksCrawl.join_raises := fun _ _ => false;
     BooksCrawl.utcnow := "2025-01-01T000000Z" |}.

End StubShop.

(** ** Values followed from the encoder through the decoder

    What the round trip of the progress file is stated on. *)


(** What may follow a number without being read into it. *)
Definition ends_number (rest : string) : bool :=
  match rest with
  | EmptyString => true
  | String c _ =>
      negb (Json.is_digit c || Ascii.eqb c "." || Ascii.eqb c "e" || Ascii.eqb c "E")
  end.

(** A run of decimal digits. *)
Fixpoint all_digits (s : string) : bool :=
  match s with
  | EmptyString => true
  | String c t => Json.is_digit c && all_digits t
  end.

(** The number a decimal digit list denotes, most significant digit first. *)
Fixpoint uint_value (d : uint) (acc : Z) : Z :=
  match d with
  | Nil => acc
  | D0 l => uint_value l (10 * acc + 0)
  | D1 l => uint_value l (10 * acc + 1)
  | D2 l => uint_value l (10 * acc + 2)
  | D3 l => uint_value l (10 * acc + 3)
  | D4 l => uint_value l (10 * acc + 4)
  | D5 l => uint_value l (10 * acc + 5)
  | D6 l => uint_value l (10 * acc + 6)
  | D7 l => uint_value l (10 * acc + 7)
  | D8 l => uint_value l (10 * acc + 8)
  | D9 l => uint_value l (10 * acc + 9)
  end.

(** A decimal literal: an optional minus sign, an integer part without
    a superfluous leading zero, a dot and at least one digit. *)
Definition decimal_text (t : string) : bool :=
  let body :=
    match t with
    | String c r => if Ascii.eqb c "-" then r else t
    | EmptyString => t
    end in
  match body with
  | String c0 r =>
      Json.is_digit c0 &&
      (let (ds, r1) := Json.span_digits r in
       (negb (Ascii.eqb c0 "0") || String.eqb ds "") &&
       match r1 with
       | String d fs => Ascii.eqb d "." && all_digits fs && negb (String.eqb fs "")
       | EmptyString => false
       end)
  | EmptyString => false
  end.

(** A printable ASCII character: the encoder writes it as itself, or
    behind a backslash for the quote and the backslash. *)
Definition plain_char (c : ascii) : bool :=
  let n := nat_of_ascii c in ((32 <=? n) && (n <=? 126))%nat.

(** A text of printable ASCII characters. *)
Fixpoint plain_text (s : string) : bool :=
  match s with
  | EmptyString => true
  | String c t => plain_char c && plain_text t
  end.

(** The text of a value at a nesting level: its chunks put together. *)
Definition text_of (level : nat) (v : pyval) : string :=
  String.concat "" (Json.iterencode level v).

(** The text of the elements of a list after the first. *)
Fixpoint items_tail (level : nat) (xs : list pyval) : string :=
  match xs with
  | [] => ""
  | y :: r =>
      "," ++ Json.newline_indent level ++ text_of level y ++ items_tail level r
  end.

(** The text of one member of a dict. *)
Definition member_text (level : nat) (k : string) (v : pyval) : string :=
  Json.encode_str k ++ ": " ++ text_of level v.

(** The text of the members of a dict after the first. *)
Fixpoint members_tail (level : nat) (d : list (string * pyval)) : string :=
  match d with
  | [] => ""
  | (k, v) :: r =>
      "," ++ Json.newline_indent level ++ member_text level k v
      ++ members_tail level r
  end.

(** No key occurs twice, as in every Python dict. *)
Fixpoint keys_fresh (d : list (string * pyval)) : bool :=
  match d with
  | [] => true
  | (k, _) :: r => negb (existsb (String.eqb k) (map fst r)) && keys_fresh r
  end.

(** The values whose written form is followed here through the decoder:
    floats in plain decimal notation, texts and keys of printable ASCII
    characters, dicts without a repeated key. *)
Fixpoint plain (v : pyval) : bool :=
  match v with
  | PyNone | PyBool _ | PyInt _ => true
  | PyFloat t => decimal_text t
  | PyStr s => plain_text s
  | PyList l => forallb plain l
  | PyDict d =>
      forallb (fun kv => plain_text (fst kv) && plain (snd kv)) d && keys_fresh d
  end.

(** The number of values nested in a value, itself included. *)
Fixpoint nodes (v : pyval) : nat :=
  match v with
  | PyList l => S (fold_right (fun x n => S (nodes x + n)) O l)
  | PyDict d => S (fold_right (fun kv n => S (nodes (snd kv) + n)) O d)
  | _ => 1
  end.

(** The characters a written value can begin with. *)
Definition starter (c : ascii) : bool :=
  Json.is_digit c || Ascii.eqb c "-" || Ascii.eqb c Json.dquote
  || Ascii.eqb c "[" || Ascii.eqb c "{" || Ascii.eqb c "n"
  || Ascii.eqb c "t" || Ascii.eqb c "f".

(** The characters a written number can begin with. *)
Definition number_head (c : ascii) : bool := Json.is_digit c || Ascii.eqb c "-".

(** The decoder reads a written value back, and stops right behind it. *)
Definition reads_back (v : pyval) : Prop :=
  forall level fuel rest,
    (nodes v <= fuel)%nat -> ends_number rest = true ->
    Json.scan_value fuel (text_of level v ++ rest) = Some (v, rest).

Definition items_size (l : list pyval) : nat :=
  fold_right (fun x n => S (nodes x + n)) O l.

Definition members_size (d : list (string * pyval)) : nat :=
  fold_right (fun kv n => S (nodes (snd kv) + n)) O d.

(** ** Properties *)

Ltac break_match :=
  match goal with
  | |- context [match ?x with _ => _ end] => destruct x eqn:?
  | |- context [if ?x then _ else _] => destruct x eqn:?
  end.

Lemma startswith_app (p s : string) :
  Text.startswith p s = true <-> exists t, s = p ++ t.
Proof.
  revert s; induction p as [|c p IH]; intros s; simpl.
  - split; [intros _; now exists s | reflexivity].
  - destruct s as [|d s].
    + split; [discriminate | intros [t Ht]; discriminate].
    + destruct (Ascii.eqb_spec c d) as [->|Hne].
      * rewrite IH. split; intros [t Ht]; exists t; congruence.
      * split; [discriminate | intros [t Ht]; congruence].
Qed.

Lemma contains_app (sub s : string) :
  Text.contains sub s = true <-> exists pre post, s = pre ++ sub ++ post.
Proof.
  induction s as [|c s IH]; simpl.
  - destruct (Text.startswith sub "") eqn:E.
    + split; [intros _ | reflexivity].
      apply startswith_app in E as [t Ht]. exists "", t. exact Ht.
    + split; [discriminate|].
      intros (pre & post & H). destruct pre; simpl in H.
      * assert (Text.startswith sub "" = true) by (apply startswith_app; eauto).
        congruence.
      * discriminate.
  - destruct (Text.startswith sub (String c s)) eqn:E.
    + split; [intros _ | reflexivity].
      apply startswith_app in E as [t Ht]. exists "", t. exact Ht.
    + rewrite IH. split.
      * intros (pre & post & ->). exists (String c pre), post. reflexivity.
      * intros (pre & post & H). destruct pre as [|d pre]; simpl in H.
        -- assert (Text.startswith sub (String c s) = true)
             by (apply startswith_app; eauto).
           congruence.
        -- injection H as _ ->. eauto.
Qed.

Lemma lower_app (a b : string) :
  Text.lower (a ++ b) = Text.lower a ++ Text.lower b.
Proof. induction a; simpl; congruence. Qed.

Lemma lower_split (s a b : string) :
  Text.lower s = a ++ b ->
  exists a' b', s = a' ++ b' /\ Text.lower a' = a /\ Text.lower b' = b.
Proof.
  revert s; induction a as [|c a IH]; intros s H; simpl in H.
  - exists "", s. auto.
  - destruct s as [|d s]; simpl in H; [discriminate|].
    injection H as Hc Hs. destruct (IH _ Hs) as (a' & b' & -> & Ha & Hb).
    exists (String d a'), b'. simpl. rewrite Hc, Ha. auto.
Qed.

Lemma contains_lower_occurs (marker body : string) :
  Text.contains marker (Text.lower body) = true <-> occurs_ci marker body.
Proof.
  rewrite contains_app. split.
  - intros (pre & post & H).
    apply lower_split in H as (pre' & rest & -> & _ & H).
    apply lower_split in H as (m & post' & -> & Hm & _).
    exists pre', m, post'. auto.
  - intros (pre & m & post & -> & Hm).
    exists (Text.lower pre), (Text.lower post).
    now rewrite !lower_app, Hm.
Qed.

(** C8.  The block detector answers true exactly when the status is 429
    or the body holds the marker "captcha" in any letter case. *)
Theorem is_ip_blocked_iff (r : response) :
  is_ip_blocked r = true <->
  status_code r = 429 \/ occurs_ci "captcha" (text r).
Proof.
  unfold is_ip_blocked.
  destruct (Z.eqb_spec (status_code r) 429) as [E|E].
  - split; auto.
  - rewrite <- contains_lower_occurs.
    destruct (Text.contains "captcha" (Text.lower (text r))).
    + split; auto.
    + split; [discriminate | intros [H|H]; [contradiction | discriminate]].
Qed.



Lemma scrape_page_events (w : world) (s : Session) (n : nat) (url : string) :
  exists tl,
    fst (scrape_page w s n url) = Get (prepare s url) :: tl /\
    forallb (fun ev => negb (is_scraping ev || is_get ev)) tl = true.
Proof.
  unfold scrape_page.
  repeat (break_match; simpl); eexists; split; reflexivity.
Qed.

(** A turn logs the page it is on, sends one request for the current
    address, and either stays on the page or moves one page further. *)
Lemma iteration_shape (w : world) (s : Session) (st : state) :
  exists evs,
    trace (fst (iteration w s st)) =
      (trace st ++ Scraping (page_index st) (current st)
                   :: Get (prepare s (current st)) :: evs)%list /\
    forallb (fun ev => negb (is_scraping ev || is_get ev)) evs = true /\
    requests (fst (iteration w s st)) = S (requests st) /\
    ((page_index (fst (iteration w s st)) = page_index st /\
      current (fst (iteration w s st)) = current st) \/
     (snd (iteration w s st) = false /\
      page_index (fst (iteration w s st)) = page_index st + 1)).
Proof.
  unfold iteration, handler.
  destruct (scrape_page_events w s (requests st) (current st)) as (tl & Hev & Htl).
  destruct (scrape_page w s (requests st) (current st)) as [evs scraped].
  simpl in Hev. subst evs.
  repeat (break_match; simpl);
    try (exists tl; repeat split; [exact Htl | auto]);
    try (exists (tl ++ [Erreur e])%list; repeat split;
         [rewrite <- app_assoc; reflexivity
         | rewrite forallb_app, Htl; reflexivity | auto]);
    try (exists (tl ++ [Erreur ValueError])%list; repeat split;
         [rewrite <- app_assoc; reflexivity
         | rewrite forallb_app, Htl; reflexivity | auto]).
Qed.

Lemma pages_of_app (a b : list event) :
  pages_of (a ++ b) = (pages_of a ++ pages_of b)%list.
Proof.
  induction a as [|ev a IH]; simpl; [reflexivity|].
  destruct ev; simpl; congruence.
Qed.

Lemma pages_of_quiet (evs : list event) :
  forallb (fun ev => negb (is_scraping ev || is_get ev)) evs = true ->
  pages_of evs = [].
Proof.
  induction evs as [|ev evs IH]; simpl; [reflexivity|].
  destruct ev; simpl; auto; discriminate.
Qed.

Lemma pages_of_In (tr : list event) (i : Z) (url : string) :
  In (Scraping i url) tr -> In i (pages_of tr).
Proof.
  induction tr as [|ev tr IH]; simpl; [tauto|].
  intros [->|H]; [now left|].
  destruct ev; simpl; auto.
Qed.

(** The loop only moves forward: the pages it logs start at the page it
    was entered on and never go below it. *)
Lemma loop_pages (w : world) (s : Session) (fuel : nat) :
  forall st,
    exists evs,
      trace (fst (loop w s fuel st)) = (trace st ++ evs)%list /\
      Forall (fun i => page_index st <= i) (pages_of evs) /\
      (fuel <> O ->
       exists rest,
         evs = Scraping (page_index st) (current st)
               :: Get (prepare s (current st)) :: rest).
Proof.
  induction fuel as [|f IH]; intros st; simpl.
  - exists []. rewrite app_nil_r. repeat split; [constructor | congruence].
  - destruct (iteration_shape w s st) as (evs & Htr & Hq & _ & Hpos).
    destruct (iteration w s st) as [st' left]. simpl in *.
    assert (Hle : page_index st <= page_index st') by (destruct Hpos; lia).
    destruct left; simpl.
    + eexists. split; [exact Htr|]. split.
      * simpl. rewrite (pages_of_quiet _ Hq). repeat constructor. lia.
      * intros _. eauto.
    + destruct (IH st') as (evs' & Htr' & Hall & _).
      rewrite Htr', Htr, <- app_assoc. simpl.
      eexists. split; [reflexivity|]. split.
      * simpl. rewrite pages_of_app, (pages_of_quiet _ Hq). simpl.
        constructor; [lia|].
        eapply Forall_impl; [|exact Hall]. simpl. intros; lia.
      * intros _. eauto.
Qed.

Lemma getitem_setitem_same (p : pyval) (k : string) (v x : pyval) :
  getitem p k = Ok x -> getitem (setitem p k v) k = Ok v.
Proof.
  destruct p; simpl; try discriminate.
  induction d as [|[k' v'] d IH]; simpl; [discriminate|].
  destruct (String.eqb k k') eqn:E; simpl.
  - rewrite String.eqb_refl. reflexivity.
  - rewrite E. destruct (dict_get k d); [auto | discriminate].
Qed.

Lemma getitem_setitem_other (p : pyval) (k k' : string) (v : pyval) :
  k <> k' -> getitem (setitem p k v) k' = getitem p k'.
Proof.
  intros Hne. destruct p; simpl; try reflexivity.
  induction d as [|[k0 v0] d IH]; simpl.
  - destruct (String.eqb_spec k' k); [congruence | reflexivity].
  - destruct (String.eqb_spec k k0) as [->|E]; simpl.
    + destruct (String.eqb_spec k' k0); [congruence | reflexivity].
    + destruct (String.eqb k' k0); [reflexivity|].
      destruct (dict_get k' (dict_set k v d)), (dict_get k' d);
        simpl in IH; congruence.
Qed.

Lemma bind_Ok {A B} (m : result A) (k : A -> result B) (b : B) :
  bind m k = Ok b -> exists a, m = Ok a /\ k a = Ok b.
Proof. destruct m; simpl; [eauto | discriminate]. Qed.

(** A turn that leaves by [break] has the book list in place. *)
Lemma iteration_break_books (w : world) (s : Session) (st : state) :
  snd (iteration w s st) = true ->
  exists books, getitem (progress (fst (iteration w s st))) "books" = Ok books.
Proof.
  unfold iteration, handler.
  destruct (scrape_page w s (requests st) (current st)) as [evs scraped].
  repeat (break_match; simpl); try discriminate.
  intros _.
  match goal with H : bind (getitem _ "books") _ = Ok _ |- _ =>
    apply bind_Ok in H as (b & Hb & _) end.
  rewrite getitem_setitem_other by discriminate.
  erewrite getitem_setitem_same by exact Hb. eauto.
Qed.

Lemma loop_break_books (w : world) (s : Session) (fuel : nat) :
  forall st,
    snd (loop w s fuel st) = true ->
    exists books, getitem (progress (fst (loop w s fuel st))) "books" = Ok books.
Proof.
  induction fuel as [|f IH]; intros st; simpl; [discriminate|].
  pose proof (iteration_break_books w s st) as Hb.
  destruct (iteration w s st) as [st' left]. destruct left; simpl in *; auto.
Qed.

Lemma py_max_upper (ks : list Z) (m : Z) :
  py_max ks = Some m -> forall k, In k ks -> k <= m.
Proof.
  destruct ks as [|z zs]; simpl; [discriminate|].
  intros [= <-]. revert z.
  induction zs as [|y zs IH]; simpl; intros z k.
  - intros [->|[]]. lia.
  - intros [->|[->|H]].
    + assert (Z.max k y <= fold_left Z.max zs (Z.max k y)) by (apply IH; now left).
      lia.
    + assert (Z.max z k <= fold_left Z.max zs (Z.max z k)) by (apply IH; now left).
      lia.
    + apply IH. now right.
Qed.

Lemma ints_of_ints (ks : list Z) : ints_of (map PyInt ks) = ks.
Proof. induction ks; simpl; congruence. Qed.

Lemma ints_are_numbers (ks : list Z) :
  forallb is_number (map PyInt ks) = true /\
  existsb is_float (map PyInt ks) = false.
Proof. induction ks; simpl; auto. Qed.

Lemma max_plus_one_ints (ks : list Z) (m : Z) :
  py_max ks = Some m -> max_plus_one (PyList (map PyInt ks)) = Some (Ok (m + 1)).
Proof.
  intros H. destruct ks as [|k ks]; [discriminate|].
  unfold max_plus_one.
  change (map PyInt (k :: ks)) with (PyInt k :: map PyInt ks) at 1.
  cbv iota.
  destruct (ints_are_numbers (k :: ks)) as [-> ->]. simpl negb. cbv iota.
  rewrite ints_of_ints, H. reflexivity.
Qed.

(** C1.  With the integers [ks] as completed pages of the loaded progress:
    when [ks] is not empty and [m] is its maximum, the run starts at page
    [m + 1], its first request is for that page's address, and no page it
    scrapes is below [m + 1], so none is in [ks]; when [ks] is empty the
    run starts at page 1 on the origin. *)
Theorem resume_rule (w : world) (file : option string) (p : pyval) (ks : list Z) :
  load_progress file = Ok p ->
  getitem p "done_pages" = Ok (PyList (map PyInt ks)) ->
  match py_max ks with
  | Some m =>
      let start := urljoin w BASE (page_path (m + 1)) in
      resume w p = Some (Ok (start, m + 1)) /\
      forall fuel, exists st,
        run_state (main w fuel file) = Some st /\
        (fuel <> O ->
         exists rest,
           trace st =
             Scraping (m + 1) start
             :: Get (prepare (session_retry (default_headers w)) start) :: rest) /\
        (forall i url, In (Scraping i url) (trace st) -> m + 1 <= i /\ ~ In i ks)
  | None =>
      resume w p = Some (Ok (BASE, 1)) /\
      forall fuel, exists st,
        run_state (main w fuel file) = Some st /\
        (fuel <> O ->
         exists rest,
           trace st =
             Scraping 1 BASE
             :: Get (prepare (session_retry (default_headers w)) BASE) :: rest)
  end.
Proof.
  intros Hload Hdone.
  assert (Hrun : forall start i0,
    resume w p = Some (Ok (start, i0)) ->
    forall fuel, exists st,
      run_state (main w fuel file) = Some st /\
      (fuel <> O ->
       exists rest,
         trace st =
           Scraping i0 start
           :: Get (prepare (session_retry (default_headers w)) start) :: rest) /\
      Forall (fun i => i0 <= i) (pages_of (trace st))).
  { intros start i0 Hres fuel. unfold main. rewrite Hload, Hres.
    set (st0 := {| progress := p; current := start; page_index := i0;
                   requests := O; saves := O; disk := file; trace := [] |}).
    destruct (loop_pages w (session_retry (default_headers w)) fuel st0)
      as (evs & Htr & Hall & Hfirst).
    pose proof (loop_break_books w (session_retry (default_headers w)) fuel st0) as Hb.
    destruct (loop w (session_retry (default_headers w)) fuel st0) as [st left].
    simpl in *. subst evs.
    assert (Hgoal : (fuel <> O ->
       exists rest, trace st = Scraping i0 start
         :: Get (prepare (session_retry (default_headers w)) start) :: rest) /\
       Forall (fun i => i0 <= i) (pages_of (trace st))) by (split; auto).
    destruct left.
    - destruct (Hb eq_refl) as (books & ->). exists st. split; [reflexivity | exact Hgoal].
    - exists st. split; [reflexivity | exact Hgoal]. }
  destruct (py_max ks) as [m|] eqn:Hmax.
  - assert (Hres : resume w p = Some (Ok (urljoin w BASE (page_path (m + 1)), m + 1))).
    { unfold resume. rewrite Hdone.
      destruct ks as [|k ks]; [discriminate|]. simpl truthy. cbv iota.
      rewrite (max_plus_one_ints (k :: ks) m Hmax). reflexivity. }
    split; [exact Hres|].
    intros fuel. destruct (Hrun _ _ Hres fuel) as (st & Hst & Hfirst & Hall).
    exists st. repeat split; auto.
    + rewrite Forall_forall in Hall. apply Hall. eapply pages_of_In; eauto.
    + intros Hin. rewrite Forall_forall in Hall.
      pose proof (Hall _ (pages_of_In _ _ _ H)).
      pose proof (py_max_upper ks m Hmax i Hin). lia.
  - assert (Hres : resume w p = Some (Ok (BASE, 1))).
    { unfold resume. rewrite Hdone.
      destruct ks as [|k ks]; [reflexivity | discriminate]. }
    split; [exact Hres|].
    intros fuel. destruct (Hrun _ _ Hres fuel) as (st & Hst & Hfirst & _).
    exists st. auto.
Qed.

Lemma resume_rule_witness :
  load_progress (Stub.file_upto 2) = Ok (Stub.progress_upto 2) /\
  getitem (Stub.progress_upto 2) "done_pages" = Ok (PyList (map PyInt [1; 2])) /\
  resume Stub.site (Stub.progress_upto 2)
    = Some (Ok (BASE ++ "catalogue/page-3.html", 3)) /\
  forall fuel, exists st,
    run_state (main Stub.site fuel (Stub.file_upto 2)) = Some st /\
    (fuel <> O ->
     exists rest,
       trace st =
         Scraping 3 (BASE ++ "catalogue/page-3.html")
         :: Get (prepare (session_retry Stub.library_headers)
                   (BASE ++ "catalogue/page-3.html")) :: rest) /\
    (forall i url, In (Scraping i url) (trace st) -> 3 <= i /\ ~ In i [1; 2]).
Proof.
  assert (H1 : load_progress (Stub.file_upto 2) = Ok (Stub.progress_upto 2))
    by (vm_compute; reflexivity).
  assert (H2 : getitem (Stub.progress_upto 2) "done_pages"
               = Ok (PyList (map PyInt [1; 2]))) by reflexivity.
  split; [exact H1|]. split; [exact H2|].
  exact (resume_rule Stub.site (Stub.file_upto 2) (Stub.progress_upto 2) [1; 2] H1 H2).
Defined.

(** *** Turns that raise *)

Lemma iteration_raises (w : world) (s : Session) (st : state)
    (evs : list event) (e : pyexn) :
  scrape_page w s (requests st) (current st) = (evs, Raise e) ->
  iteration w s st = (retried st evs e, false).
Proof.
  intros H. unfold iteration, handler, retried. rewrite H. simpl.
  rewrite <- app_assoc. reflexivity.
Qed.

Lemma scrape_page_blocked (w : world) (s : Session) (n : nat) (url : string)
    (r : response) :
  send w n (prepare s url) = inr r ->
  is_ip_blocked r = true ->
  scrape_page w s n url = ([Get (prepare s url); Blocked], Raise IPBlocked).
Proof. intros H B. unfold scrape_page. rewrite H, B. reflexivity. Qed.

Lemma scrape_page_http_error (w : world) (s : Session) (n : nat) (url : string)
    (r : response) :
  send w n (prepare s url) = inr r ->
  is_ip_blocked r = false ->
  400 <= status_code r < 600 ->
  scrape_page w s n url = ([Get (prepare s url)], Raise (HTTPError (status_code r))).
Proof.
  intros H B [Hlo Hhi]. unfold scrape_page, raise_for_status. rewrite H, B.
  apply Z.leb_le in Hlo. apply Z.ltb_lt in Hhi. rewrite Hlo, Hhi. reflexivity.
Qed.

(** An address that raises the same way at every request holds the loop
    for ever: after any number of turns the loop has not left, and only
    the request count and the log have moved. *)
Lemma loop_stuck (w : world) (s : Session) (url : string)
    (evs : list event) (e : pyexn) :
  (forall n, scrape_page w s n url = (evs, Raise e)) ->
  forall fuel st,
    current st = url ->
    exists st',
      loop w s fuel st = (st', false) /\
      progress st' = progress st /\ disk st' = disk st /\
      page_index st' = page_index st /\ current st' = url /\
      saves st' = saves st /\ requests st' = (requests st + fuel)%nat.
Proof.
  intros Hraise. induction fuel as [|f IH]; intros st Hcur; simpl.
  - exists st. repeat split; auto.
  - rewrite (iteration_raises w s st evs e) by (rewrite Hcur; apply Hraise).
    destruct (IH (retried st evs e) Hcur) as (st' & -> & ? & ? & ? & ? & ? & Hreq).
    exists st'. simpl in *. repeat split; auto. lia.
Qed.

(** C3.  On a re-run over the finished crawl of the stub site the resume
    position is page 4, which answers 404: whatever the number of turns,
    the run is still looping on page 4, having sent one request per turn
    and changed neither the progress nor its file; it never reaches the
    end of [main]. *)
Theorem not_found_retried_forever (fuel : nat) :
  exists st,
    main Stub.site fuel (Stub.file_upto 3) = Looping st /\
    requests st = fuel /\
    page_index st = 4 /\
    current st = BASE ++ "catalogue/page-4.html" /\
    progress st = Stub.progress_upto 3 /\
    disk st = Stub.file_upto 3.
Proof.
  unfold main.
  replace (load_progress (Stub.file_upto 3)) with (Ok (Stub.progress_upto 3))
    by (vm_compute; reflexivity).
  replace (resume Stub.site (Stub.progress_upto 3))
    with (Some (Ok (BASE ++ "catalogue/page-4.html", 4)))
    by (vm_compute; reflexivity).
  match goal with |- context [loop ?w ?s fuel ?st0] =>
    destruct (loop_stuck w s (BASE ++ "catalogue/page-4.html")
                [Get (prepare s (BASE ++ "catalogue/page-4.html"))]
                (HTTPError 404)
                (fun n => eq_refl) fuel st0 eq_refl)
      as (st' & -> & Hp & Hd & Hi & Hc & _ & Hr)
  end.
  exists st'. simpl in *. repeat split; auto.
Qed.

(** *** Blocked responses *)

(** C4, as amended.  A response classified as blocked makes [scrape_page]
    log the block and raise; the turn ends in the handler: the loop is not
    left, the same address stays current, and neither the progress, nor
    its file, nor the page number has changed, so the blocked page is not
    marked done by that turn and the next turn requests it again. *)
Theorem blocked_turn_is_retried (w : world) (s : Session) (st : state)
    (r : response) :
  send w (requests st) (prepare s (current st)) = inr r ->
  is_ip_blocked r = true ->
  iteration w s st
    = (retried st [Get (prepare s (current st)); Blocked] IPBlocked, false).
Proof.
  intros H B. apply iteration_raises. now apply scrape_page_blocked with r.
Qed.

Lemma blocked_turn_is_retried_witness :
  let s := session_retry Stub.library_headers in
  let st := {| progress := empty_progress; current := BASE; page_index := 1;
               requests := O; saves := O; disk := None; trace := [] |} in
  let r := Stub.challenge in
  send Stub.site_block_once (requests st) (prepare s (current st)) = inr r /\
  is_ip_blocked r = true /\
  iteration Stub.site_block_once s st
    = (retried st [Get (prepare s (current st)); Blocked] IPBlocked, false).
Proof.
  intros s st r.
  split; [reflexivity|]. split; [reflexivity|].
  apply (blocked_turn_is_retried Stub.site_block_once s st r); reflexivity.
Defined.

(** C4, as stated, fails: on the site that answers its first request with
    a challenge page, the blocked request is followed by a second request
    for the same page. *)
Lemma block_abort_fails : ~ block_abort Stub.site_block_once None.
Proof.
  intros H.
  assert (E : exists st,
             run_state (main Stub.site_block_once 2 None) = Some st /\
             gets (trace st)
             = [prepare (session_retry Stub.library_headers) BASE;
                prepare (session_retry Stub.library_headers) BASE])
    by (eexists; split; [vm_compute; reflexivity | vm_compute; reflexivity]).
  destruct E as (st & Hst & Hgets).
  specialize (H 2%nat st O (prepare (session_retry Stub.library_headers) BASE)
                Stub.challenge Hst).
  rewrite Hgets in H. specialize (H eq_refl eq_refl eq_refl). discriminate H.
Qed.

(** The page that was blocked is marked done by the retry. *)
Lemma blocked_page_done_after_retry :
  exists st,
    main Stub.site_block_once 2 None = Looping st /\
    getitem (progress st) "done_pages" = Ok (PyList [PyInt 1]).
Proof.
  eexists. split; [vm_compute; reflexivity | vm_compute; reflexivity].
Qed.

(** *** The progress file *)

Lemma concat_firstn_skipn (k : nat) (chunks : list string) :
  String.concat "" chunks
  = String.concat "" (firstn k chunks) ++ String.concat "" (skipn k chunks).
Proof.
  revert k. induction chunks as [|c cs IH]; intros [|k]; try reflexivity.
  change (firstn (S k) (c :: cs)) with (c :: firstn k cs).
  change (skipn (S k) (c :: cs)) with (skipn k cs).
  assert (Hc : forall l, String.concat "" (c :: l) = c ++ String.concat "" l).
  { intros [|x l]; simpl; [|reflexivity].
    clear. induction c; simpl; congruence. }
  rewrite !Hc, (IH k).
  clear. induction c; simpl; congruence.
Qed.

(** C2, as amended.  A save rewrites the progress file in place.  When it
    completes, the file holds the serialization of the whole state; when
    it fails or dies before the file is opened, the file is untouched;
    once the file is opened its former content is gone, and a save that
    stops after [k] chunk writes leaves the first [k] chunks, a prefix of
    the new serialization (the empty file for [k = 0]). *)
Theorem save_rewrites_in_place (p : pyval) (old : option string) (k : nat) :
  save_progress None p old = (Ok tt, Some (Json.dumps p)) /\
  interrupted_save O p old = old /\
  interrupted_save 1 p old = Some "" /\
  exists rest,
    interrupted_save (S k) p old
      = Some (String.concat "" (firstn k (Json.iterencode 0 p))) /\
    Json.dumps p = String.concat "" (firstn k (Json.iterencode 0 p)) ++ rest.
Proof.
  repeat split.
  exists (String.concat "" (skipn k (Json.iterencode 0 p))). split.
  - reflexivity.
  - apply concat_firstn_skipn.
Qed.

(** C2, as stated, fails: when the save of the second page dies right
    after the file is opened, the file is empty: neither the snapshot of
    the first page nor the new state. *)
Lemma atomic_save_fails :
  ~ atomic_save (Stub.progress_upto 2) (Stub.file_upto 1).
Proof.
  intros H. destruct (H 1%nat) as [E|E]; vm_compute in E; discriminate E.
Qed.

(** A fault raised by the save is the same cut, seen by the handler. *)
Lemma save_fault_cut (p : pyval) (old : option string) (k : nat) :
  (k <= List.length (Json.iterencode 0 p))%nat ->
  save_progress (Some (Raised k)) p old = (Raise OSError, interrupted_save k p old).
Proof.
  intros H. unfold save_progress. apply Nat.leb_le in H. rewrite H. reflexivity.
Qed.

(** With no progress file the run starts from the empty progress. *)
Lemma load_missing : load_progress None = Ok empty_progress.
Proof. reflexivity. Qed.

(** A progress file that does not decode ends [main] at once, whatever
    the site. *)
Lemma load_corrupt_crashes (w : world) (fuel : nat) (content : string) :
  Json.loads content = None ->
  main w fuel (Some content) = Crashed JSONDecodeError [].
Proof. intros H. unfold main, load_progress. rewrite H. reflexivity. Qed.

(** C5.  On the file a torn save left behind, [load_progress] raises the
    decoding error and [main] dies of it before its loop, on any site and
    for any number of turns; the sibling [load_cache] of the quotes
    exercise answers the empty dict on the same file. *)
Theorem torn_progress_crashes (w : world) (fuel : nat) :
  load_progress Stub.file_torn = Raise JSONDecodeError /\
  main w fuel Stub.file_torn = Crashed JSONDecodeError [] /\
  Quotes.load_cache Stub.file_torn = PyDict [].
Proof.
  assert (E : exists c, Stub.file_torn = Some c /\ Json.loads c = None)
    by (eexists; split; [vm_compute; reflexivity | vm_compute; reflexivity]).
  destruct E as (c & -> & Hc). repeat split.
  - unfold load_progress. rewrite Hc. reflexivity.
  - now apply load_corrupt_crashes.
  - unfold Quotes.load_cache. rewrite Hc. reflexivity.
Qed.

(** *** The schema of the progress file *)

(** A progress file that decodes to something other than an object with
    the key "done_pages" ends [main] with TypeError or KeyError while the
    resume position is computed: no request has been sent and the handler
    of the loop is never reached. *)
Lemma missing_done_pages_crashes (w : world) (fuel : nat)
    (content : string) (v : pyval) :
  Json.loads content = Some v ->
  (forall d, v = PyDict d -> dict_get "done_pages" d = None) ->
  exists e,
    (e = TypeError \/ e = KeyError "done_pages") /\
    main w fuel (Some content) = Crashed e [].
Proof.
  intros Hload Hno. unfold main, load_progress, resume. rewrite Hload.
  destruct v; simpl; try (exists TypeError; split; [now left | reflexivity]).
  rewrite (Hno d eq_refl). exists (KeyError "done_pages").
  split; [now right | reflexivity].
Qed.

(** A turn on a progress whose "books" cannot be read changes nothing but
    the counters and the log, whatever the site answers: either the page
    failed, or [progress["books"]] raised inside the [try]. *)
Lemma iteration_without_books (w : world) (s : Session) (st : state) (e : pyexn) :
  getitem (progress st) "books" = Raise e ->
  snd (iteration w s st) = false /\
  progress (fst (iteration w s st)) = progress st /\
  disk (fst (iteration w s st)) = disk st /\
  page_index (fst (iteration w s st)) = page_index st /\
  current (fst (iteration w s st)) = current st /\
  saves (fst (iteration w s st)) = saves st /\
  requests (fst (iteration w s st)) = S (requests st).
Proof.
  intros Hb. unfold iteration, handler.
  destruct (scrape_page w s (requests st) (current st)) as [evs [[books next]|e']];
    cbn [progress current page_index requests saves disk trace fst snd].
  - rewrite Hb. cbn [bind fst snd progress current page_index requests saves disk].
    repeat split.
  - repeat split.
Qed.

Lemma loop_without_books (w : world) (s : Session) (e : pyexn) (fuel : nat) :
  forall st,
    getitem (progress st) "books" = Raise e ->
    exists st',
      loop w s fuel st = (st', false) /\
      progress st' = progress st /\ disk st' = disk st /\
      page_index st' = page_index st /\ current st' = current st /\
      saves st' = saves st /\ requests st' = (requests st + fuel)%nat.
Proof.
  induction fuel as [|f IH]; intros st Hb; simpl.
  - exists st. rewrite Nat.add_0_r. repeat split.
  - destruct (iteration_without_books w s st e Hb)
      as (Hl & Hp & Hd & Hi & Hc & Hs & Hr).
    destruct (iteration w s st) as [st1 left]. simpl in *. subst left.
    destruct (IH st1) as (st' & Hloop & Hp' & Hd' & Hi' & Hc' & Hs' & Hr').
    { now rewrite Hp. }
    exists st'. split; [exact Hloop|].
    repeat split; try congruence. lia.
Qed.

(** C10, as amended.  [load_progress] hands back whatever the file decodes
    to, and only "done_pages" is read before the loop.  A file that
    decodes to something other than an object with the key "done_pages"
    ends [main] with TypeError or KeyError while the resume position is
    computed, before any request and outside the handler of the loop.  A
    file that decodes to an object with a list of integers under
    "done_pages" and nothing under "books" does not: the resume position
    is computed as for any progress, one request is sent at every turn,
    every exception of the turn is caught, and the run stays in its loop
    for ever with the progress and the file it found. *)
Theorem progress_schema_unvalidated (w : world) (fuel : nat)
    (content : string) (v : pyval) :
  Json.loads content = Some v ->
  ((forall d, v = PyDict d -> dict_get "done_pages" d = None) ->
   exists e,
     (e = TypeError \/ e = KeyError "done_pages") /\
     main w fuel (Some content) = Crashed e []) /\
  (forall d ks,
     v = PyDict d ->
     dict_get "done_pages" d = Some (PyList (map PyInt ks)) ->
     dict_get "books" d = None ->
     exists st,
       main w fuel (Some content) = Looping st /\
       progress st = v /\ disk st = Some content /\
       requests st = fuel /\ saves st = O /\
       page_index st = match py_max ks with Some m => m + 1 | None => 1 end).
Proof.
  intros Hload. split.
  - exact (missing_done_pages_crashes w fuel content v Hload).
  - intros d ks -> Hdone Hbooks. unfold main, load_progress. rewrite Hload.
    assert (Hres : exists start,
               resume w (PyDict d)
               = Some (Ok (start, match py_max ks with
                                  | Some m => m + 1
                                  | None => 1
                                  end))).
    { unfold resume, getitem. rewrite Hdone.
      destruct ks as [|k ks]; [eexists; reflexivity|].
      simpl truthy. cbv iota.
      rewrite (max_plus_one_ints (k :: ks) _ eq_refl). eexists. reflexivity. }
    destruct Hres as (start & ->).
    match goal with |- context [loop ?w0 ?s0 fuel ?st0] =>
      destruct (loop_without_books w0 s0 (KeyError "books") fuel st0)
        as (st & Hloop & Hp & Hd & Hi & _ & Hs & Hr);
        [cbn [progress getitem]; now rewrite Hbooks | rewrite Hloop]
    end.
    exists st. cbn [progress disk page_index requests saves] in *.
    repeat split; auto.
Qed.

Lemma progress_schema_unvalidated_witness :
  Json.loads "{}" = Some (PyDict []) /\
  (exists e,
     (e = TypeError \/ e = KeyError "done_pages") /\
     main Stub.site 3 (Some "{}") = Crashed e []) /\
  exists content,
    Stub.file_without_books = Some content /\
    Json.loads content = Some (PyDict [("done_pages", PyList [])]) /\
    exists st,
      main Stub.site 3 (Some content) = Looping st /\
      progress st = PyDict [("done_pages", PyList [])] /\
      disk st = Some content /\
      requests st = 3%nat /\ saves st = O /\ page_index st = 1.
Proof.
  assert (H1 : Json.loads "{}" = Some (PyDict [])) by reflexivity.
  split; [exact H1|]. split.
  - apply (proj1 (progress_schema_unvalidated Stub.site 3 "{}" (PyDict []) H1)).
    intros d [= <-]. reflexivity.
  - assert (E : exists c,
               Stub.file_without_books = Some c /\
               Json.loads c = Some (PyDict [("done_pages", PyList [])]))
      by (eexists; split; [vm_compute; reflexivity | vm_compute; reflexivity]).
    destruct E as (c & Hc & Hl). exists c.
    split; [exact Hc|]. split; [exact Hl|].
    exact (proj2 (progress_schema_unvalidated Stub.site 3 c _ Hl)
             [("done_pages", PyList [])] [] eq_refl eq_refl eq_refl).
Defined.

(** C10, as stated, fails: the file that holds "done_pages" but not
    "books" lacks a key of the schema, yet the resume position is computed
    and the first page requested; the KeyError comes inside the loop and
    is caught. *)
Lemma schema_crash_fails : ~ schema_crash Stub.site.
Proof.
  intros H.
  assert (E : exists c,
             Stub.file_without_books = Some c /\
             Json.loads c = Some (PyDict [("done_pages", PyList [])]))
    by (eexists; split; [vm_compute; reflexivity | vm_compute; reflexivity]).
  destruct E as (c & Hc & Hl).
  destruct (H c _ 1%nat Hl) as (e & _ & Hmain).
  - intros (d & [= <-] & _ & Hb). apply Hb. reflexivity.
  - rewrite <- Hc in Hmain. vm_compute in Hmain. discriminate Hmain.
Qed.

(** What happens instead, turn after turn. *)
Lemma missing_books_is_retried :
  exists st,
    main Stub.site 2 Stub.file_without_books = Looping st /\
    requests st = 2%nat /\
    List.filter (fun ev => match ev with Erreur _ => true | _ => false end) (trace st)
    = [Erreur (KeyError "books"); Erreur (KeyError "books")].
Proof.
  eexists. split; [vm_compute; reflexivity|].
  split; vm_compute; reflexivity.
Qed.

(** *** Records and completed pages *)

(** C7.  On the stub site, when the first opening of the progress file
    fails, the first page is scraped again with its records and its
    number already in the progress: the run ends with page 1 twice in
    the completed pages and its two books twice in the records, and
    that state is the one on disk. *)
Theorem disk_fault_duplicates_page :
  exists st books,
    main Stub.site_disk_fault 4 None = Terminated st books /\
    getitem (progress st) "done_pages"
      = Ok (PyList [PyInt 1; PyInt 1; PyInt 2; PyInt 3]) /\
    books = PyList (Stub.books_of 1 ++ Stub.books_of 1
                    ++ Stub.books_of 2 ++ Stub.books_of 3) /\
    disk st = Some (Json.dumps (progress st)) /\
    load_progress (disk st) = Ok (progress st).
Proof.
  do 2 eexists. split; [vm_compute; reflexivity|].
  repeat split; vm_compute; reflexivity.
Qed.

(** The scenario of the specification on a healthy disk: three pages of
    two records, six records and pages 1 to 3 at the end. *)
Example three_pages_run :
  exists st,
    main Stub.site 3 None = Terminated st (PyList (flat_map Stub.books_of [1; 2; 3])) /\
    progress st = Stub.progress_upto 3 /\
    disk st = Stub.file_upto 3.
Proof.
  eexists. split; [vm_compute; reflexivity|].
  split; vm_compute; reflexivity.
Qed.

(** *** Sessions *)

(** What the scripts hand to the retrying adapter; the attempts and the
    waits themselves are the adapter's. *)
Lemma retry_settings (defaults : list (string * string)) :
  let r6 := max_retries (session_retry defaults) in
  let r1 := max_retries (Books.default_session defaults) in
  total r6 = 5 /\ total r1 = 3 /\
  backoff_factor r6 = 1 /\ backoff_factor r1 = 1 /\
  status_forcelist r6 = [429; 500; 502; 503; 504] /\
  status_forcelist r1 = status_forcelist r6 /\
  allowed_methods r6 = ["GET"] /\ allowed_methods r1 = ["GET"; "POST"].
Proof. repeat split. Qed.


Lemma header_get_set (k v : string) (hs : list (string * string)) :
  header_get k (header_set k v hs) = Some v.
Proof.
  induction hs as [|[k' v'] hs IH]; cbn [header_get header_set].
  - now rewrite String.eqb_refl.
  - destruct (String.eqb (Text.lower k) (Text.lower k')) eqn:Ek;
      cbn [header_get].
    + now rewrite String.eqb_refl.
    + now rewrite Ek.
Qed.

(** ** Further properties of the resilient scraper *)

(** *** What [scrape_page] returns *)

(** [scrape_page] hands records back in one case only: the request was
    answered, the answer is not a block, its status is outside 400-599,
    and the extraction went through; it then returns what the extraction
    gave and has logged nothing but the request. *)
Theorem scrape_page_returns_iff (w : world) (s : Session) (n : nat)
    (url : string) (evs : list event) (books : list pyval)
    (next_rel : option string) :
  scrape_page w s n url = (evs, Ok (books, next_rel)) <->
  exists r,
    send w n (prepare s url) = inr r /\
    is_ip_blocked r = false /\
    ~ (400 <= status_code r < 600) /\
    extract w (text r) = inr (books, next_rel) /\
    evs = [Get (prepare s url)].
Proof.
  unfold scrape_page, raise_for_status. split.
  - destruct (send w n (prepare s url)) as [e|r] eqn:Es; [discriminate|].
    destruct (is_ip_blocked r) eqn:Eb; [discriminate|].
    destruct ((400 <=? status_code r) && (status_code r <? 600)) eqn:E;
      [discriminate|].
    destruct (extract w (text r)) as [e|x] eqn:Ex; simpl; [discriminate|].
    intros [= <- ->]. exists r.
    split; [reflexivity|]. split; [exact Eb|]. split; [|split; auto].
    intros [Hlo Hhi]. apply Z.leb_le in Hlo. apply Z.ltb_lt in Hhi.
    rewrite Hlo, Hhi in E. discriminate.
  - intros (r & -> & -> & Hst & -> & ->).
    destruct ((400 <=? status_code r) && (status_code r <? 600)) eqn:E.
    + exfalso. apply Hst. apply andb_true_iff in E as [Hlo Hhi].
      apply Z.leb_le in Hlo. apply Z.ltb_lt in Hhi. auto.
    + reflexivity.
Qed.

(** *** One turn on a progress of the expected shape *)

(** With lists under "books" and "done_pages", a turn either changes
    nothing but the counters and the log, or adds the records of the page
    and its number once and goes through [save_progress] once; it leaves
    the loop only when that save went through. *)
Lemma iteration_progress (w : world) (s : Session) (st : state)
    (bs ds : list pyval) :
  getitem (progress st) "books" = Ok (PyList bs) ->
  getitem (progress st) "done_pages" = Ok (PyList ds) ->
  (progress (fst (iteration w s st)) = progress st /\
   disk (fst (iteration w s st)) = disk st /\
   saves (fst (iteration w s st)) = saves st /\
   snd (iteration w s st) = false) \/
  (exists books,
     getitem (progress (fst (iteration w s st))) "books"
       = Ok (PyList (bs ++ books)) /\
     getitem (progress (fst (iteration w s st))) "done_pages"
       = Ok (PyList (ds ++ [PyInt (page_index st)])) /\
     saves (fst (iteration w s st)) = S (saves st) /\
     disk (fst (iteration w s st))
       = snd (save_progress (save_fault w (saves st))
                (progress (fst (iteration w s st))) (disk st)) /\
     (snd (iteration w s st) = true ->
      fst (save_progress (save_fault w (saves st))
             (progress (fst (iteration w s st))) (disk st)) = Ok tt)).
Proof.
  intros Hb Hd. unfold iteration, handler.
  destruct (scrape_page w s (requests st) (current st)) as [evs [[books next]|e]];
    cbn [progress current page_index requests saves disk trace fst snd].
  - rewrite Hb. cbn [bind extend].
    rewrite getitem_setitem_other by discriminate. rewrite Hd. cbn [bind append].
    right. exists books.
    set (p2 := setitem (setitem (progress st) "books" (PyList (bs ++ books)))
                 "done_pages" (PyList (ds ++ [PyInt (page_index st)]))).
    assert (H1 : getitem p2 "books" = Ok (PyList (bs ++ books))).
    { unfold p2. rewrite getitem_setitem_other by discriminate.
      eapply getitem_setitem_same; eauto. }
    assert (H2 : getitem p2 "done_pages"
                 = Ok (PyList (ds ++ [PyInt (page_index st)]))).
    { unfold p2. eapply getitem_setitem_same.
      rewrite getitem_setitem_other by discriminate. eauto. }
    destruct (save_progress (save_fault w (saves st)) p2 (disk st))
      as [[[]|e] d'] eqn:Es;
      [destruct (no_next next); [|destruct (urljoin_raises w _ _)]|];
      cbn [progress current page_index requests saves disk trace fst snd];
      rewrite ?Es; cbn [fst snd]; repeat split; auto; discriminate.
  - left. auto.
Qed.

(** *** What the loop keeps *)

Lemma loop_appends (w : world) (s : Session) (fuel : nat) :
  forall st bs ds,
    getitem (progress st) "books" = Ok (PyList bs) ->
    getitem (progress st) "done_pages" = Ok (PyList ds) ->
    exists bs' ds',
      getitem (progress (fst (loop w s fuel st))) "books"
        = Ok (PyList (bs ++ bs')) /\
      getitem (progress (fst (loop w s fuel st))) "done_pages"
        = Ok (PyList (ds ++ ds')).
Proof.
  induction fuel as [|f IH]; intros st bs ds Hb Hd; simpl.
  - exists [], []. now rewrite !app_nil_r.
  - pose proof (iteration_progress w s st bs ds Hb Hd) as Hit.
    destruct (iteration w s st) as [st' left]. simpl in Hit.
    destruct Hit as [(Hp & _ & _ & ->)|(books & Hb' & Hd' & _)].
    + rewrite <- Hp in Hb, Hd. exact (IH st' bs ds Hb Hd).
    + destruct left; simpl.
      * exists books, [PyInt (page_index st)]. auto.
      * destruct (IH st' _ _ Hb' Hd') as (bs' & ds' & Hb2 & Hd2).
        exists (books ++ bs')%list, (PyInt (page_index st) :: ds').
        rewrite Hb2, Hd2, <- !app_assoc. auto.
Qed.

(** The records and the completed pages a run was loaded with are never
    dropped, reordered or rewritten: whatever the site answers and whatever
    the disk does, the progress of every later state holds them as the
    head of its lists. *)
Theorem progress_is_append_only (w : world) (fuel : nat) (file : option string)
    (p : pyval) (bs ds : list pyval) (st : state) :
  load_progress file = Ok p ->
  getitem p "books" = Ok (PyList bs) ->
  getitem p "done_pages" = Ok (PyList ds) ->
  run_state (main w fuel file) = Some st ->
  exists bs' ds',
    getitem (progress st) "books" = Ok (PyList (bs ++ bs')) /\
    getitem (progress st) "done_pages" = Ok (PyList (ds ++ ds')).
Proof.
  intros Hload Hb Hd Hrun. unfold main in Hrun. rewrite Hload in Hrun.
  destruct (resume w p) as [[[c0 i0]|]|]; try discriminate.
  match type of Hrun with context [loop ?w ?s fuel ?st0] =>
    pose proof (loop_appends w s fuel st0 bs ds Hb Hd) as HL;
    destruct (loop w s fuel st0) as [st1 left]
  end.
  simpl in HL. destruct left.
  - destruct (getitem (progress st1) "books") eqn:Eb; [|discriminate].
    injection Hrun as <-. rewrite Eb. exact HL.
  - injection Hrun as <-. exact HL.
Qed.

Lemma progress_is_append_only_witness :
  load_progress (Stub.file_upto 1) = Ok (Stub.progress_upto 1) /\
  getitem (Stub.progress_upto 1) "books" = Ok (PyList (Stub.books_of 1)) /\
  getitem (Stub.progress_upto 1) "done_pages" = Ok (PyList [PyInt 1]) /\
  exists st,
    run_state (main Stub.site_disk_fault 3 (Stub.file_upto 1)) = Some st /\
    exists bs' ds',
      getitem (progress st) "books" = Ok (PyList (Stub.books_of 1 ++ bs')) /\
      getitem (progress st) "done_pages" = Ok (PyList ([PyInt 1] ++ ds')).
Proof.
  assert (H1 : load_progress (Stub.file_upto 1) = Ok (Stub.progress_upto 1))
    by (vm_compute; reflexivity).
  assert (H2 : getitem (Stub.progress_upto 1) "books" = Ok (PyList (Stub.books_of 1)))
    by reflexivity.
  assert (H3 : getitem (Stub.progress_upto 1) "done_pages" = Ok (PyList [PyInt 1]))
    by reflexivity.
  assert (E : exists st,
             run_state (main Stub.site_disk_fault 3 (Stub.file_upto 1)) = Some st)
    by (eexists; vm_compute; reflexivity).
  destruct E as (st & Hst).
  split; [exact H1|]. split; [exact H2|]. split; [exact H3|].
  exists st. split; [exact Hst|].
  exact (progress_is_append_only Stub.site_disk_fault 3 (Stub.file_upto 1)
           (Stub.progress_upto 1) (Stub.books_of 1) [PyInt 1] st H1 H2 H3 Hst).
Defined.

(** A save that returns has written the whole progress, unless the disk
    failed behind its back. *)
Lemma save_ok (f : option fault) (p : pyval) (old d : option string) :
  (forall k, f <> Some (Swallowed k)) ->
  save_progress f p old = (Ok tt, d) -> d = Some (Json.dumps p).
Proof.
  unfold save_progress. intros Hf. destruct f as [[k|k]|].
  - destruct (k <=? List.length (Json.iterencode 0 p))%nat; [discriminate|].
    now intros [= <-].
  - now destruct (Hf k).
  - now intros [= <-].
Qed.

Lemma loop_saved (w : world) (s : Session) (fuel : nat) :
  (forall n, save_fault w n = None) ->
  forall st bs ds,
    getitem (progress st) "books" = Ok (PyList bs) ->
    getitem (progress st) "done_pages" = Ok (PyList ds) ->
    disk st = Some (Json.dumps (progress st)) ->
    disk (fst (loop w s fuel st))
    = Some (Json.dumps (progress (fst (loop w s fuel st)))).
Proof.
  intros Hdisk. induction fuel as [|f IH]; intros st bs ds Hb Hd HD; simpl; auto.
  pose proof (iteration_progress w s st bs ds Hb Hd) as Hit.
  destruct (iteration w s st) as [st' left]. simpl in Hit.
  destruct Hit as [(Hp & Hdk & _ & ->)|(books & Hb' & Hd' & _ & Hdk & _)].
  - rewrite <- Hp in Hb, Hd. apply (IH st' bs ds Hb Hd). now rewrite Hp, Hdk.
  - rewrite Hdisk in Hdk. simpl in Hdk.
    destruct left; simpl; [exact Hdk|].
    now apply (IH st' _ _ Hb' Hd').
Qed.

Lemma loop_tracks (w : world) (s : Session) (fuel : nat) :
  (forall n, save_fault w n = None) ->
  forall st bs ds,
    getitem (progress st) "books" = Ok (PyList bs) ->
    getitem (progress st) "done_pages" = Ok (PyList ds) ->
    (saves (fst (loop w s fuel st)) = saves st /\
     progress (fst (loop w s fuel st)) = progress st /\
     disk (fst (loop w s fuel st)) = disk st) \/
    disk (fst (loop w s fuel st))
    = Some (Json.dumps (progress (fst (loop w s fuel st)))).
Proof.
  intros Hdisk. induction fuel as [|f IH]; intros st bs ds Hb Hd; simpl; auto.
  pose proof (iteration_progress w s st bs ds Hb Hd) as Hit.
  pose proof (loop_saved w s f Hdisk (fst (iteration w s st))) as Hsaved.
  destruct (iteration w s st) as [st' left]. simpl in Hit, Hsaved.
  destruct Hit as [(Hp & Hdk & Hsv & ->)|(books & Hb' & Hd' & _ & Hdk & _)].
  - rewrite <- Hp in Hb, Hd.
    destruct (IH st' bs ds Hb Hd) as [(H1 & H2 & H3)|H]; [left|right; exact H].
    repeat split; congruence.
  - rewrite Hdisk in Hdk. simpl in Hdk. right.
    destruct left; simpl; [exact Hdk|].
    now apply (Hsaved _ _ Hb' Hd').
Qed.

(** While no save fails, the progress file keeps up with the progress in
    memory: in every state of a run loaded with lists under "books" and
    "done_pages", either nothing has been saved yet and file and progress
    are as loaded, or the file is the serialization of the progress in
    memory. *)
Theorem disk_tracks_progress (w : world) (fuel : nat) (file : option string)
    (p : pyval) (bs ds : list pyval) (st : state) :
  (forall n, save_fault w n = None) ->
  load_progress file = Ok p ->
  getitem p "books" = Ok (PyList bs) ->
  getitem p "done_pages" = Ok (PyList ds) ->
  run_state (main w fuel file) = Some st ->
  (saves st = O /\ progress st = p /\ disk st = file) \/
  disk st = Some (Json.dumps (progress st)).
Proof.
  intros Hdisk Hload Hb Hd Hrun. unfold main in Hrun. rewrite Hload in Hrun.
  destruct (resume w p) as [[[c0 i0]|]|]; try discriminate.
  match type of Hrun with context [loop ?w ?s fuel ?st0] =>
    pose proof (loop_tracks w s fuel Hdisk st0 bs ds Hb Hd) as HL;
    destruct (loop w s fuel st0) as [st1 left]
  end.
  simpl in HL. destruct left.
  - destruct (getitem (progress st1) "books"); [|discriminate].
    injection Hrun as <-. exact HL.
  - injection Hrun as <-. exact HL.
Qed.

Lemma disk_tracks_progress_witness :
  (forall n, save_fault Stub.site_block_once n = None) /\
  load_progress None = Ok empty_progress /\
  getitem empty_progress "books" = Ok (PyList []) /\
  getitem empty_progress "done_pages" = Ok (PyList []) /\
  exists st,
    run_state (main Stub.site_block_once 3 None) = Some st /\
    ((saves st = O /\ progress st = empty_progress /\ disk st = None) \/
     disk st = Some (Json.dumps (progress st))).
Proof.
  assert (H0 : forall n, save_fault Stub.site_block_once n = None)
    by (intros n; reflexivity).
  assert (E : exists st, run_state (main Stub.site_block_once 3 None) = Some st)
    by (eexists; vm_compute; reflexivity).
  destruct E as (st & Hst).
  split; [exact H0|]. repeat (split; [reflexivity|]).
  exists st. split; [exact Hst|].
  exact (disk_tracks_progress Stub.site_block_once 3 None empty_progress [] [] st
           H0 eq_refl eq_refl eq_refl Hst).
Defined.

(** *** How a run ends *)

Lemma append_Ok (d d' item : pyval) :
  append d item = Ok d' -> exists l, d = PyList l /\ d' = PyList (l ++ [item]).
Proof. destruct d; simpl; try discriminate. intros [= <-]. eauto. Qed.

(** The turn that leaves the loop has just saved: the file is the
    serialization of the progress, and the last completed page is the
    page of that turn. *)
Lemma iteration_break_saved (w : world) (s : Session) (st : state) :
  (forall k, save_fault w (saves st) <> Some (Swallowed k)) ->
  snd (iteration w s st) = true ->
  disk (fst (iteration w s st))
  = Some (Json.dumps (progress (fst (iteration w s st)))) /\
  page_index (fst (iteration w s st)) = page_index st /\
  exists ds,
    getitem (progress (fst (iteration w s st))) "done_pages"
    = Ok (PyList (ds ++ [PyInt (page_index st)])).
Proof.
  intros Hf. unfold iteration, handler.
  destruct (scrape_page w s (requests st) (current st)) as [evs [[books next]|e]];
    cbn [progress current page_index requests saves disk trace fst snd];
    [|discriminate].
  destruct (bind (getitem (progress st) "books") (fun b => extend b books))
    as [b'|e]; cbn [snd]; [|discriminate].
  destruct (bind (getitem (setitem (progress st) "books" b') "done_pages")
              (fun d => append d (PyInt (page_index st)))) as [d'|e] eqn:Ed;
    cbn [snd]; [|discriminate].
  destruct (save_progress _ _ (disk st)) as [[[]|e] dk] eqn:Es;
    cbn [snd]; [|discriminate].
  destruct (no_next next); cbn [fst snd progress disk page_index];
    [|destruct (urljoin_raises w _ _); discriminate].
  intros _. split; [exact (save_ok _ _ _ _ Hf Es)|]. split; [reflexivity|].
  apply bind_Ok in Ed as (d & Hd & Ha).
  apply append_Ok in Ha as (l & -> & ->).
  exists l. eapply getitem_setitem_same. exact Hd.
Qed.

Lemma loop_break_saved (w : world) (s : Session) (fuel : nat) :
  (forall n k, save_fault w n <> Some (Swallowed k)) ->
  forall st,
    snd (loop w s fuel st) = true ->
    disk (fst (loop w s fuel st))
    = Some (Json.dumps (progress (fst (loop w s fuel st)))) /\
    exists ds,
      getitem (progress (fst (loop w s fuel st))) "done_pages"
      = Ok (PyList (ds ++ [PyInt (page_index (fst (loop w s fuel st)))])).
Proof.
  intros Hf. induction fuel as [|f IH]; intros st; simpl; [discriminate|].
  pose proof (iteration_break_saved w s st (Hf (saves st))) as Hb.
  destruct (iteration w s st) as [st' left]. destruct left; simpl in *; auto.
  intros _. destruct (Hb eq_refl) as (H1 & H2 & ds & H3).
  split; [exact H1|]. exists ds. now rewrite H2.
Qed.

(** When [main] comes to its end on a disk that swallows no error (a
    save that fails raises), the progress file is the serialization of the
    final progress, whatever saves failed before; the exported list is the
    "books" of that progress, and the page the run stopped on is the last
    of its completed pages. *)
Theorem terminated_is_saved (w : world) (fuel : nat) (file : option string)
    (st : state) (output : pyval) :
  (forall n k, save_fault w n <> Some (Swallowed k)) ->
  main w fuel file = Terminated st output ->
  disk st = Some (Json.dumps (progress st)) /\
  getitem (progress st) "books" = Ok output /\
  exists ds,
    getitem (progress st) "done_pages"
    = Ok (PyList (ds ++ [PyInt (page_index st)])).
Proof.
  intros Hf. unfold main. destruct (load_progress file) as [p0|]; [|discriminate].
  destruct (resume w p0) as [[[c0 i0]|]|]; try discriminate.
  match goal with |- context [loop ?w ?s fuel ?st0] =>
    pose proof (loop_break_saved w s fuel Hf st0) as HL;
    destruct (loop w s fuel st0) as [st1 left]
  end.
  simpl in HL. destruct left; [|discriminate].
  destruct (getitem (progress st1) "books") eqn:Eb; [|discriminate].
  intros [= <- <-]. destruct (HL eq_refl) as (H1 & H2). auto.
Qed.

Lemma terminated_is_saved_witness :
  (forall n k, save_fault Stub.site_disk_fault n <> Some (Swallowed k)) /\
  exists st output,
    main Stub.site_disk_fault 4 None = Terminated st output /\
    disk st = Some (Json.dumps (progress st)) /\
    getitem (progress st) "books" = Ok output /\
    exists ds,
      getitem (progress st) "done_pages"
      = Ok (PyList (ds ++ [PyInt (page_index st)])).
Proof.
  assert (H0 : forall n k, save_fault Stub.site_disk_fault n <> Some (Swallowed k))
    by (intros [|n] k; discriminate).
  assert (E : exists st output,
             main Stub.site_disk_fault 4 None = Terminated st output)
    by (do 2 eexists; vm_compute; reflexivity).
  destruct E as (st & output & Hrun).
  split; [exact H0|]. exists st, output. split; [exact Hrun|].
  exact (terminated_is_saved Stub.site_disk_fault 4 None st output H0 Hrun).
Defined.

(** Without that proviso the end of [main] says nothing of the file: when
    the flush of the last save fails behind the back of the script, the
    run ends all the same and leaves a progress file that cannot be
    loaded. *)
Example swallowed_fault_tears_file :
  exists st output,
    main Stub.site_swallowed_fault 3 None = Terminated st output /\
    disk st <> Some (Json.dumps (progress st)) /\
    load_progress (disk st) = Raise JSONDecodeError.
Proof.
  do 2 eexists. split; [vm_compute; reflexivity|].
  split; [vm_compute; discriminate | vm_compute; reflexivity].
Qed.

(** *** Retrying without end *)

(** Whatever the exception, an address that raises at every request is
    requested without end: after any number of turns [main] is still in
    its loop, has sent one request per turn, and holds the progress and
    the file it started with. *)
Theorem failing_page_is_retried_for_ever (w : world) (fuel : nat)
    (file : option string) (p : pyval) (url : string) (i : Z)
    (evs : list event) (e : pyexn) :
  load_progress file = Ok p ->
  resume w p = Some (Ok (url, i)) ->
  (forall n, scrape_page w (session_retry (default_headers w)) n url
             = (evs, Raise e)) ->
  exists st,
    main w fuel file = Looping st /\
    requests st = fuel /\ saves st = O /\
    progress st = p /\ disk st = file /\
    current st = url /\ page_index st = i.
Proof.
  intros Hload Hres Hraise. unfold main. rewrite Hload, Hres.
  match goal with |- context [loop ?w ?s fuel ?st0] =>
    destruct (loop_stuck w s url evs e Hraise fuel st0 eq_refl)
      as (st' & -> & Hp & Hd & Hi & Hc & Hs & Hr)
  end.
  exists st'. simpl in *. repeat split; auto.
Qed.

Lemma failing_page_is_retried_for_ever_witness :
  let s := session_retry (default_headers Stub.site_down) in
  load_progress None = Ok empty_progress /\
  resume Stub.site_down empty_progress = Some (Ok (BASE, 1)) /\
  (forall n, scrape_page Stub.site_down s n BASE
             = ([Get (prepare s BASE)], Raise RequestException)) /\
  exists st,
    main Stub.site_down 7 None = Looping st /\
    requests st = 7%nat /\ saves st = O /\
    progress st = empty_progress /\ disk st = None /\
    current st = BASE /\ page_index st = 1.
Proof.
  intros s.
  assert (H3 : forall n, scrape_page Stub.site_down s n BASE
                         = ([Get (prepare s BASE)], Raise RequestException))
    by (intros n; reflexivity).
  split; [reflexivity|]. split; [reflexivity|]. split; [exact H3|].
  exact (failing_page_is_retried_for_ever Stub.site_down 7 None empty_progress
           BASE 1 [Get (prepare s BASE)] RequestException eq_refl eq_refl H3).
Defined.

(** *** Requests and saves *)

Lemma gets_app (a b : list event) : gets (a ++ b) = (gets a ++ gets b)%list.
Proof.
  induction a as [|ev a IH]; simpl; [reflexivity|].
  destruct ev; simpl; rewrite ?IH; reflexivity.
Qed.

Lemma gets_quiet (evs : list event) :
  forallb (fun ev => negb (is_scraping ev || is_get ev)) evs = true ->
  gets evs = [].
Proof.
  induction evs as [|ev evs IH]; simpl; [reflexivity|].
  destruct ev; simpl; auto; discriminate.
Qed.

Lemma iteration_saves (w : world) (s : Session) (st : state) :
  saves (fst (iteration w s st)) = saves st \/
  saves (fst (iteration w s st)) = S (saves st).
Proof.
  unfold iteration, handler.
  destruct (scrape_page w s (requests st) (current st)) as [evs scraped].
  repeat (break_match; simpl); auto.
Qed.

Lemma loop_counts (w : world) (s : Session) (fuel : nat) :
  forall st,
    List.length (gets (trace st)) = requests st ->
    (saves st <= requests st)%nat ->
    List.length (gets (trace (fst (loop w s fuel st))))
      = requests (fst (loop w s fuel st)) /\
    (saves (fst (loop w s fuel st)) <= requests (fst (loop w s fuel st)))%nat /\
    (requests (fst (loop w s fuel st)) <= requests st + fuel)%nat /\
    (requests st + (if snd (loop w s fuel st) then 1 else fuel)
     <= requests (fst (loop w s fuel st)))%nat.
Proof.
  induction fuel as [|f IH]; intros st Hg Hs; simpl.
  - repeat split; auto; lia.
  - destruct (iteration_shape w s st) as (evs & Htr & Hq & Hr & _).
    pose proof (iteration_saves w s st) as Hsv.
    destruct (iteration w s st) as [st' left]. simpl in *.
    assert (Hg' : List.length (gets (trace st')) = requests st').
    { rewrite Htr, gets_app. simpl. rewrite (gets_quiet _ Hq), length_app.
      simpl. lia. }
    assert (Hs' : (saves st' <= requests st')%nat) by lia.
    destruct left; simpl.
    + repeat split; auto; lia.
    + destruct (IH st' Hg' Hs') as (H1 & H2 & H3 & H4).
      repeat split; auto; try lia.
      destruct (snd (loop w s f st')); lia.
Qed.

(** Every turn of the loop sends exactly one request, and a save only
    follows a request: in every state of a run the requests logged are as
    many as the request count, there are no more saves than requests and
    no more requests than turns, and a run still in its loop has sent one
    request for each of its turns. *)
Theorem one_request_per_turn (w : world) (fuel : nat) (file : option string)
    (st : state) :
  run_state (main w fuel file) = Some st ->
  List.length (gets (trace st)) = requests st /\
  (saves st <= requests st <= fuel)%nat /\
  (main w fuel file = Looping st -> requests st = fuel).
Proof.
  unfold main. destruct (load_progress file) as [p0|]; [|discriminate].
  destruct (resume w p0) as [[[c0 i0]|]|]; try discriminate.
  match goal with |- context [loop ?w ?s fuel ?st0] =>
    pose proof (loop_counts w s fuel st0 eq_refl (Nat.le_refl _)) as HL;
    destruct (loop w s fuel st0) as [st1 left]
  end.
  simpl in HL. destruct HL as (H1 & H2 & H3 & H4). destruct left.
  - destruct (getitem (progress st1) "books"); [|discriminate].
    intros [= <-]. repeat split; auto. discriminate.
  - intros [= <-]. repeat split; auto. intros _. lia.
Qed.

Lemma one_request_per_turn_witness :
  exists st,
    run_state (main Stub.site_block_once 3 None) = Some st /\
    List.length (gets (trace st)) = requests st /\
    (saves st <= requests st <= 3)%nat /\
    (main Stub.site_block_once 3 None = Looping st -> requests st = 3%nat).
Proof.
  assert (E : exists st, run_state (main Stub.site_block_once 3 None) = Some st)
    by (eexists; vm_compute; reflexivity).
  destruct E as (st & Hst). exists st. split; [exact Hst|].
  exact (one_request_per_turn Stub.site_block_once 3 None st Hst).
Defined.

(** *** A next link that [urljoin] rejects *)

(** The progress of a fresh run that has put the same page [k] times. *)
Lemma repeated_page_step (w : world) (s : Session) (st : state)
    (books : list pyval) (h : string) (k : nat) :
  snd (scrape_page w s (requests st) (current st)) = Ok (books, Some h) ->
  h <> "" ->
  urljoin_raises w (current st) h = true ->
  progress st
  = PyDict [("done_pages", PyList (repeat (PyInt (page_index st)) k));
            ("books", PyList (List.concat (repeat books k)))] ->
  snd (iteration w s st) = false /\
  current (fst (iteration w s st)) = current st /\
  page_index (fst (iteration w s st)) = page_index st /\
  requests (fst (iteration w s st)) = S (requests st) /\
  progress (fst (iteration w s st))
  = PyDict [("done_pages", PyList (repeat (PyInt (page_index st)) (S k)));
            ("books", PyList (List.concat (repeat books (S k))))].
Proof.
  intros Hs Hh Hj Hp. unfold iteration, handler.
  destruct (scrape_page w s (requests st) (current st)) as [evs scraped].
  cbn [snd] in Hs. subst scraped.
  cbn [progress current page_index requests saves disk trace].
  rewrite Hp. cbn [getitem dict_get String.eqb Ascii.eqb Bool.eqb bind extend
                   setitem dict_set append].
  assert (Hn : no_next (Some h) = false)
    by (cbn [no_next]; now apply String.eqb_neq).
  assert (Hd : (repeat (PyInt (page_index st)) k ++ [PyInt (page_index st)])%list
               = repeat (PyInt (page_index st)) (S k))
    by (change (repeat (PyInt (page_index st)) (S k))
          with (PyInt (page_index st) :: repeat (PyInt (page_index st)) k);
        now rewrite repeat_cons).
  assert (Hb : (List.concat (repeat books k) ++ books)%list
               = List.concat (repeat books (S k))).
  { change (repeat books (S k)) with (books :: repeat books k).
    rewrite (repeat_cons k books), List.concat_app. cbn [List.concat].
    now rewrite app_nil_r. }
  rewrite Hd, Hb.
  destruct (save_progress _ _ (disk st)) as [[[]|e] d'];
    rewrite ?Hn, ?Hj;
    cbn [fst snd progress current page_index requests]; repeat split.
Qed.

Lemma repeated_page_loop (w : world) (s : Session) (url : string)
    (books : list pyval) (h : string) (fuel : nat) :
  (forall n, snd (scrape_page w s n url) = Ok (books, Some h)) ->
  h <> "" ->
  urljoin_raises w url h = true ->
  forall st k,
    current st = url ->
    progress st
    = PyDict [("done_pages", PyList (repeat (PyInt (page_index st)) k));
              ("books", PyList (List.concat (repeat books k)))] ->
    exists st',
      loop w s fuel st = (st', false) /\
      current st' = url /\ page_index st' = page_index st /\
      requests st' = (requests st + fuel)%nat /\
      progress st'
      = PyDict [("done_pages", PyList (repeat (PyInt (page_index st)) (k + fuel)));
                ("books", PyList (List.concat (repeat books (k + fuel))))].
Proof.
  intros Hs Hh Hj. induction fuel as [|f IH]; intros st k Hc Hp; simpl.
  - exists st. rewrite !Nat.add_0_r. auto.
  - destruct (repeated_page_step w s st books h k) as (Hl & Hc1 & Hi1 & Hr1 & Hp1);
      [rewrite Hc; apply Hs | exact Hh | now rewrite Hc | exact Hp |].
    destruct (iteration w s st) as [st1 left]. simpl in *. subst left.
    destruct (IH st1 (S k)) as (st' & Hloop & Hc' & Hi' & Hr' & Hp');
      [congruence | now rewrite Hi1 |].
    exists st'. rewrite Hi1 in Hi', Hp'.
    split; [exact Hloop|]. split; [exact Hc'|]. split; [exact Hi'|].
    split; [lia|]. rewrite Nat.add_succ_r. exact Hp'.
Qed.

(** When the next link of the first page is one that [urljoin] rejects,
    a fresh run never leaves that page: the ValueError is raised after the
    page was put and saved, the handler asks for the same page again, and
    each turn puts the page once more.  After [fuel] turns the run is
    still in its loop, on page 1, with the page [fuel] times under
    "done_pages" and its records [fuel] times under "books". *)
Theorem rejected_next_link_repeats_page (w : world) (books : list pyval)
    (h : string) (fuel : nat) :
  (forall n,
     snd (scrape_page w (session_retry (default_headers w)) n BASE)
     = Ok (books, Some h)) ->
  h <> "" ->
  urljoin_raises w BASE h = true ->
  exists st,
    main w fuel None = Looping st /\
    current st = BASE /\ page_index st = 1 /\ requests st = fuel /\
    progress st
    = PyDict [("done_pages", PyList (repeat (PyInt 1) fuel));
              ("books", PyList (List.concat (repeat books fuel)))].
Proof.
  intros Hs Hh Hj. unfold main. cbn [load_progress].
  change (resume w empty_progress) with (Some (Ok (BASE, 1))). cbv iota.
  match goal with |- context [loop ?w0 ?s0 fuel ?st0] =>
    destruct (repeated_page_loop w0 s0 BASE books h fuel Hs Hh Hj st0 O
                eq_refl eq_refl)
      as (st & Hloop & Hc & Hi & Hr & Hp); rewrite Hloop
  end.
  exists st. cbn [page_index requests] in *. auto.
Qed.

Lemma rejected_next_link_repeats_page_witness :
  (forall n,
     snd (scrape_page Stub.site_bad_link
            (session_retry (default_headers Stub.site_bad_link)) n BASE)
     = Ok (Stub.books_of 1, Some "//[")) /\
  "//[" <> "" /\
  urljoin_raises Stub.site_bad_link BASE "//[" = true /\
  exists st,
    main Stub.site_bad_link 2 None = Looping st /\
    current st = BASE /\ page_index st = 1 /\ requests st = 2%nat /\
    progress st
    = PyDict [("done_pages", PyList (repeat (PyInt 1) 2));
              ("books", PyList (List.concat (repeat (Stub.books_of 1) 2)))].
Proof.
  assert (H1 : forall n,
             snd (scrape_page Stub.site_bad_link
                    (session_retry (default_headers Stub.site_bad_link)) n BASE)
             = Ok (Stub.books_of 1, Some "//["))
    by (intros n; vm_compute; reflexivity).
  assert (H2 : "//[" <> "") by discriminate.
  assert (H3 : urljoin_raises Stub.site_bad_link BASE "//[" = true) by reflexivity.
  split; [exact H1|]. split; [exact H2|]. split; [exact H3|].
  exact (rejected_next_link_repeats_page Stub.site_bad_link (Stub.books_of 1)
           "//[" 2 H1 H2 H3).
Defined.

(** ** Properties of the books scraper *)

Lemma rating_words (cls : string) :
  BooksCrawl.lookup cls BooksCrawl.RATING_MAP = None <->
  ~ In cls ["One"; "Two"; "Three"; "Four"; "Five"].
Proof.
  unfold BooksCrawl.RATING_MAP. cbn [BooksCrawl.lookup In].
  destruct (String.eqb_spec cls "One") as [->|H1];
    [split; [discriminate | tauto]|].
  destruct (String.eqb_spec cls "Two") as [->|H2];
    [split; [discriminate | tauto]|].
  destruct (String.eqb_spec cls "Three") as [->|H3];
    [split; [discriminate | tauto]|].
  destruct (String.eqb_spec cls "Four") as [->|H4];
    [split; [discriminate | tauto]|].
  destruct (String.eqb_spec cls "Five") as [->|H5];
    [split; [discriminate | tauto]|].
  split; [|reflexivity]. intros _ H.
  repeat (destruct H as [H|H]; [congruence|]). exact H.
Qed.

Lemma rating_range (cls : string) (r : Z) :
  BooksCrawl.lookup cls BooksCrawl.RATING_MAP = Some r -> 1 <= r <= 5.
Proof.
  unfold BooksCrawl.RATING_MAP. cbn [BooksCrawl.lookup].
  destruct (String.eqb cls "One"); [intros [= <-]; lia|].
  destruct (String.eqb cls "Two"); [intros [= <-]; lia|].
  destruct (String.eqb cls "Three"); [intros [= <-]; lia|].
  destruct (String.eqb cls "Four"); [intros [= <-]; lia|].
  destruct (String.eqb cls "Five"); [intros [= <-]; lia|].
  discriminate.
Qed.

(** [parse_rating] answers [None] exactly when no class of the tag is one
    of the five rating words, spelled with their capital; otherwise it
    answers the rating of the first class that is one, a number from 1 to
    5, whatever classes follow. *)
Theorem parse_rating_first_word (classes : list string) :
  (BooksCrawl.parse_rating classes = None <->
   forall cls, In cls classes -> ~ In cls ["One"; "Two"; "Three"; "Four"; "Five"]) /\
  (forall r,
     BooksCrawl.parse_rating classes = Some r ->
     1 <= r <= 5 /\
     exists pre cls post,
       classes = (pre ++ cls :: post)%list /\
       BooksCrawl.lookup cls BooksCrawl.RATING_MAP = Some r /\
       forall c, In c pre -> ~ In c ["One"; "Two"; "Three"; "Four"; "Five"]).
Proof.
  induction classes as [|cls rest [IHn IHs]]; cbn [BooksCrawl.parse_rating].
  - split; [split; [intros _ c [] | reflexivity] | discriminate].
  - destruct (BooksCrawl.lookup cls BooksCrawl.RATING_MAP) as [r0|] eqn:E.
    + split.
      * split; [discriminate|]. intros H. exfalso.
        assert (Hn : BooksCrawl.lookup cls BooksCrawl.RATING_MAP = None)
          by (apply rating_words, H; now left).
        congruence.
      * intros r [= <-]. split; [exact (rating_range _ _ E)|].
        exists [], cls, rest. repeat split; auto; intros c [].
    + split.
      * rewrite IHn. split.
        -- intros H c [<-|Hc]; [now apply rating_words | now apply H].
        -- intros H c Hc. apply H. now right.
      * intros r Hr. destruct (IHs r Hr) as (Hrange & pre & c & post & -> & Hc & Hpre).
        split; [exact Hrange|].
        exists (cls :: pre), c, post. repeat split; auto.
        intros c0 [<-|H0]; [now apply rating_words | now apply Hpre].
Qed.

(** Every pod whose link is found and accepted by [urljoin] gives one
    book, in page order: the book holds the title, the joined address, the
    price and the rating of its pod, and the details of its detail page
    when that page was fetched and read, the empty details of line 117
    when the request raised, answered 404 or answered an error status.
    The detail request of the i-th pod is the i-th request after those
    already made, and no other request is sent. *)
Theorem every_pod_gives_a_book (w : BooksCrawl.site) (s : Session)
    (current : string) (pods : list BooksCrawl.pod) (books : list pyval)
    (n : nat) (sent : list request) :
  (forall p, In p pods ->
     exists t h, BooksCrawl.pod_link p = inr (t, h) /\
                 BooksCrawl.join_raises w current h = false) ->
  exists new sent',
    BooksCrawl.each_pod w s current pods books n sent
    = (Ok (books ++ new)%list, (n + List.length pods)%nat, (sent ++ sent')%list) /\
    List.length new = List.length pods /\
    List.length sent' = List.length pods /\
    forall i p t h,
      nth_error pods i = Some p ->
      BooksCrawl.pod_link p = inr (t, h) ->
      let book_url := BooksCrawl.join w current h in
      nth_error sent' i = Some (prepare s book_url) /\
      nth_error new i
      = Some (BooksCrawl.book_of t book_url (BooksCrawl.pod_price p)
                (BooksCrawl.parse_rating (BooksCrawl.pod_classes p))
                match BooksCrawl.scrape_book_detail w s (n + i) book_url with
                | Ok (Some d) => d
                | Ok None | Raise _ => BooksCrawl.fallback
                end).
Proof.
  revert books n sent.
  induction pods as [|p rest IH]; intros books n sent Hlinks;
    cbn [BooksCrawl.each_pod].
  - exists [], []. rewrite !app_nil_r, Nat.add_0_r.
    do 3 (split; [reflexivity|]).
    intros [|i] p t h Hi; discriminate Hi.
  - destruct (Hlinks p (or_introl eq_refl)) as (t & h & Hp & Hj). rewrite Hp, Hj.
    match goal with |- context [BooksCrawl.each_pod w s current rest ?b ?m ?q] =>
      destruct (IH b m q (fun p' H' => Hlinks p' (or_intror H')))
        as (new & sent' & -> & Hlen & Hsent & Hnth)
    end.
    eexists (_ :: new), (_ :: sent').
    split.
    { rewrite <- !app_assoc. cbn [app List.length].
      rewrite Nat.add_succ_r. reflexivity. }
    cbn [List.length].
    split; [now rewrite Hlen|]. split; [now rewrite Hsent|].
    intros [|i] p0 t0 h0 Hi Hp0; cbn [nth_error] in *.
    + injection Hi as <-. rewrite Hp in Hp0. injection Hp0 as <- <-.
      rewrite Nat.add_0_r. split; reflexivity.
    + rewrite Nat.add_succ_r. exact (Hnth i p0 t0 h0 Hi Hp0).
Qed.

Lemma every_pod_gives_a_book_witness :
  let s := Books.default_session Stub.library_headers in
  (forall p, In p StubShop.pods ->
     exists t h, BooksCrawl.pod_link p = inr (t, h) /\
                 BooksCrawl.join_raises StubShop.shop BooksCrawl.BASE h = false) /\
  exists new sent',
    BooksCrawl.each_pod StubShop.shop s BooksCrawl.BASE StubShop.pods [] 1 []
    = (Ok ([] ++ new)%list, (1 + List.length StubShop.pods)%nat, ([] ++ sent')%list) /\
    List.length new = List.length StubShop.pods /\
    List.length sent' = List.length StubShop.pods /\
    forall i p t h,
      nth_error StubShop.pods i = Some p ->
      BooksCrawl.pod_link p = inr (t, h) ->
      let book_url := BooksCrawl.join StubShop.shop BooksCrawl.BASE h in
      nth_error sent' i = Some (prepare s book_url) /\
      nth_error new i
      = Some (BooksCrawl.book_of t book_url (BooksCrawl.pod_price p)
                (BooksCrawl.parse_rating (BooksCrawl.pod_classes p))
                match BooksCrawl.scrape_book_detail StubShop.shop s (1 + i) book_url with
                | Ok (Some d) => d
                | Ok None | Raise _ => BooksCrawl.fallback
                end).
Proof.
  intros s.
  assert (H : forall p, In p StubShop.pods ->
                exists t h, BooksCrawl.pod_link p = inr (t, h) /\
                  BooksCrawl.join_raises StubShop.shop BooksCrawl.BASE h = false).
  { intros p [<-|[<-|[]]]; simpl; eauto. }
  split; [exact H|].
  exact (every_pod_gives_a_book StubShop.shop s BooksCrawl.BASE StubShop.pods
           [] 1 [] H).
Defined.

(** On the stub shop the second book, whose detail page answers 500, is
    kept with the empty details. *)
Example failed_detail_falls_back :
  exists b1 b2,
    BooksCrawl.each_pod StubShop.shop (Books.default_session Stub.library_headers)
      BooksCrawl.BASE StubShop.pods [] 1 []
    = (Ok [b1; b2], 3%nat,
       [prepare (Books.default_session Stub.library_headers)
          (BooksCrawl.BASE ++ "catalogue/a-light/index.html");
        prepare (Books.default_session Stub.library_headers)
          (BooksCrawl.BASE ++ "catalogue/tipping/index.html")]) /\
    BooksCrawl.key_of "category" b1 = Some (PyStr "Poetry") /\
    BooksCrawl.key_of "title" b2 = Some (PyStr "Tipping the Velvet") /\
    BooksCrawl.key_of "category" b2 = Some (PyStr "") /\
    BooksCrawl.key_of "description" b2 = Some (PyStr "") /\
    BooksCrawl.key_of "stock" b2 = Some (PyInt 0) /\
    BooksCrawl.key_of "image_url" b2 = Some (PyStr "").
Proof.
  do 2 eexists. split; [vm_compute; reflexivity|].
  repeat split; vm_compute; reflexivity.
Qed.

(** A link that [urljoin] rejects ends the run at its pod: no book is
    made of it, and the books made of the pods before it go nowhere. *)
Lemma rejected_link_crashes (w : BooksCrawl.site) (s : Session)
    (current : string) (p : BooksCrawl.pod) (rest : list BooksCrawl.pod)
    (books : list pyval) (n : nat) (sent : list request) (t h : string) :
  BooksCrawl.pod_link p = inr (t, h) ->
  BooksCrawl.join_raises w current h = true ->
  BooksCrawl.each_pod w s current (p :: rest) books n sent
  = (Raise ValueError, n, sent).
Proof. intros Hp Hj. cbn [BooksCrawl.each_pod]. now rewrite Hp, Hj. Qed.

Lemma each_pod_sent (w : BooksCrawl.site) (s : Session) (current : string)
    (pods : list BooksCrawl.pod) :
  forall books n sent,
    Forall (fun rq => req_headers rq = headers s) sent ->
    Forall (fun rq => req_headers rq = headers s)
           (snd (BooksCrawl.each_pod w s current pods books n sent)).
Proof.
  induction pods as [|p rest IH]; intros books n sent Hs;
    cbn [BooksCrawl.each_pod]; [exact Hs|].
  destruct (BooksCrawl.pod_link p) as [e|[t h]]; [exact Hs|].
  destruct (BooksCrawl.join_raises w current h); [exact Hs|].
  apply IH. apply Forall_app. split; [exact Hs|]. repeat constructor.
Qed.

Lemma crawl_sent (w : BooksCrawl.site) (s : Session) (fuel : nat) :
  forall st,
    Forall (fun rq => req_headers rq = headers s) (BooksCrawl.sent st) ->
    Forall (fun rq => req_headers rq = headers s)
           (BooksCrawl.sent_of (BooksCrawl.crawl w s fuel st)).
Proof.
  induction fuel as [|f IH]; intros st Hs; cbn [BooksCrawl.crawl]; [exact Hs|].
  assert (Hs1 : Forall (fun rq => req_headers rq = headers s)
                  (BooksCrawl.sent st ++ [prepare s (BooksCrawl.current st)]))
    by (apply Forall_app; split; [exact Hs | repeat constructor]).
  destruct (BooksCrawl.answer w (BooksCrawl.requests st)
              (prepare s (BooksCrawl.current st))) as [e|resp]; [exact Hs1|].
  destruct (status_code resp =? 404); [exact Hs1|].
  destruct (raise_for_status resp); [|exact Hs1].
  destruct (BooksCrawl.read_listing w (text resp)) as [pods next].
  cbn [BooksCrawl.books BooksCrawl.current BooksCrawl.requests BooksCrawl.sent
       BooksCrawl.page_index].
  pose proof (each_pod_sent w s (BooksCrawl.current st) pods (BooksCrawl.books st)
                (S (BooksCrawl.requests st)) _ Hs1) as Hp.
  destruct (BooksCrawl.each_pod w s (BooksCrawl.current st) pods
              (BooksCrawl.books st) (S (BooksCrawl.requests st))
              (BooksCrawl.sent st ++ [prepare s (BooksCrawl.current st)]))
    as [[[books'|e] n'] sent']; cbn [snd] in Hp; [|exact Hp].
  destruct next as [href|]; [|exact Hp].
  destruct (String.eqb href ""); [exact Hp|].
  destruct (BooksCrawl.join_raises w (BooksCrawl.current st) href); [exact Hp|].
  apply IH. exact Hp.
Qed.

(** Every request of the books scraper, for a listing or for a detail
    page, carries the User-Agent the session was built with, whatever the
    library puts on a fresh session and however the run ends. *)
Theorem books_requests_carry_user_agent (w : BooksCrawl.site) (fuel : nat)
    (rq : request) :
  In rq (BooksCrawl.sent_of (BooksCrawl.scrape w fuel)) ->
  header_get "User-Agent" (req_headers rq)
  = Some "Mozilla/5.0 (compatible; lab-scraper/1.0)".
Proof.
  intros Hin. unfold BooksCrawl.scrape in Hin.
  match type of Hin with context [BooksCrawl.crawl ?w ?s fuel ?st0] =>
    pose proof (crawl_sent w s fuel st0 (Forall_nil _)) as HL
  end.
  rewrite Forall_forall in HL. rewrite (HL rq Hin).
  apply header_get_set.
Qed.

Lemma books_requests_carry_user_agent_witness :
  let rq := prepare (Books.default_session Stub.library_headers)
              (BooksCrawl.BASE ++ "catalogue/tipping/index.html") in
  In rq (BooksCrawl.sent_of (BooksCrawl.scrape StubShop.shop 3)) /\
  header_get "User-Agent" (req_headers rq)
  = Some "Mozilla/5.0 (compatible; lab-scraper/1.0)".
Proof.
  intros rq.
  assert (Hin : In rq (BooksCrawl.sent_of (BooksCrawl.scrape StubShop.shop 3)))
    by (vm_compute; tauto).
  split; [exact Hin|].
  exact (books_requests_carry_user_agent StubShop.shop 3 rq Hin).
Defined.



Lemma header_get_set_other (k k' v : string) (hs : list (string * string)) :
  Text.lower k <> Text.lower k' ->
  header_get k' (header_set k v hs) = header_get k' hs.
Proof.
  intros Hne.
  assert (Hkk : String.eqb (Text.lower k') (Text.lower k) = false)
    by (apply String.eqb_neq; congruence).
  induction hs as [|[k0 v0] hs IH]; cbn [header_get header_set].
  - now rewrite Hkk.
  - destruct (String.eqb (Text.lower k) (Text.lower k0)) eqn:E;
      cbn [header_get].
    + apply String.eqb_eq in E. rewrite <- E, Hkk. reflexivity.
    + now rewrite IH.
Qed.

(** The session builder of the books exercise replaces the User-Agent of
    the fresh session, under whatever letter case it was spelled, and
    leaves every other header as the library set it. *)
Theorem session_keeps_other_headers (total backoff_factor : Z)
    (defaults : list (string * string)) (name : string) :
  Text.lower name <> "user-agent" ->
  header_get name
    (headers (Books.create_session_with_retries total backoff_factor defaults))
  = header_get name defaults /\
  header_get "USER-AGENT"
    (headers (Books.create_session_with_retries total backoff_factor defaults))
  = Some "Mozilla/5.0 (compatible; lab-scraper/1.0)".
Proof.
  intros Hne. split.
  - apply header_get_set_other. intros E. apply Hne. rewrite <- E. reflexivity.
  - cbn [Books.create_session_with_retries headers].
    induction defaults as [|[k0 v0] hs IH]; cbn [header_get header_set].
    + reflexivity.
    + destruct (String.eqb (Text.lower "User-Agent") (Text.lower k0)) eqn:E;
        cbn [header_get].
      * reflexivity.
      * change (Text.lower "USER-AGENT") with (Text.lower "User-Agent").
        rewrite E. exact IH.
Qed.

Lemma session_keeps_other_headers_witness :
  Text.lower "Accept" <> "user-agent" /\
  header_get "Accept"
    (headers (Books.create_session_with_retries 3 1 Stub.library_headers))
  = header_get "Accept" Stub.library_headers /\
  header_get "USER-AGENT"
    (headers (Books.create_session_with_retries 3 1 Stub.library_headers))
  = Some "Mozilla/5.0 (compatible; lab-scraper/1.0)".
Proof.
  assert (H : Text.lower "Accept" <> "user-agent") by (vm_compute; discriminate).
  split; [exact H|].
  exact (session_keeps_other_headers 3 1 Stub.library_headers "Accept" H).
Defined.





(** ** The progress file read back

    [save_progress] (lines 52-53) followed by [load_progress] (lines
    47-50): the decoder undoes the encoder on plain values. *)

Lemma span_digits_app (ds rest : string) :
  all_digits ds = true ->
  match rest with String c _ => Json.is_digit c = false | EmptyString => True end ->
  Json.span_digits (ds ++ rest) = (ds, rest).
Proof.
  intros Hd Hr. induction ds as [|c ds IH]; simpl in *.
  - destruct rest as [|c r]; [reflexivity|]. simpl. now rewrite Hr.
  - apply andb_true_iff in Hd as [Hc Hds]. rewrite Hc, (IH Hds). reflexivity.
Qed.

Lemma digits_value_uint (d : uint) (acc : Z) :
  Json.digits_value (NilEmpty.string_of_uint d) acc = uint_value d acc.
Proof.
  revert acc. induction d; intros acc; simpl; try reflexivity; apply IHd.
Qed.

Lemma all_digits_uint (d : uint) : all_digits (NilEmpty.string_of_uint d) = true.
Proof. induction d; simpl; auto. Qed.

Lemma uint_value_acc (d : uint) (acc : positive) :
  uint_value d (Zpos acc) = Zpos (Pos.of_uint_acc d acc).
Proof.
  revert acc. induction d; intros acc; cbn [uint_value Pos.of_uint_acc];
    try reflexivity; rewrite <- IHd; f_equal; lia.
Qed.

Lemma uint_value_of_uint (d : uint) : uint_value d 0 = Z.of_N (Pos.of_uint d).
Proof.
  induction d; cbn [uint_value Pos.of_uint]; try reflexivity; try exact IHd;
    match goal with |- uint_value _ ?k = _ =>
      let k' := eval compute in k in change k with k' end;
    rewrite uint_value_acc; reflexivity.
Qed.

Lemma pos_value (p : positive) : uint_value (Pos.to_uint p) 0 = Zpos p.
Proof. now rewrite uint_value_of_uint, DecimalPos.Unsigned.of_to. Qed.

Lemma nzhead_not_D0 (d l : uint) : nzhead d <> D0 l.
Proof. induction d; simpl; try discriminate; exact IHd. Qed.

Lemma pos_head (p : positive) :
  exists c t, NilEmpty.string_of_uint (Pos.to_uint p) = String c t /\
              Json.is_digit c = true /\ Ascii.eqb c "0" = false.
Proof.
  pose proof (DecimalPos.Unsigned.to_of (Pos.to_uint p)) as H.
  rewrite DecimalPos.Unsigned.of_to in H. simpl in H.
  pose proof (DecimalPos.Unsigned.to_uint_nonnil p) as Hn.
  pose proof (DecimalPos.Unsigned.to_uint_nonzero p) as Hz.
  destruct (Pos.to_uint p) as [|l|l|l|l|l|l|l|l|l|l] eqn:E;
    try congruence; try (simpl; eauto 6; fail).
  exfalso. unfold unorm in H. simpl in H.
  destruct (nzhead l) eqn:En; try discriminate.
  - injection H as Hl. subst l. now apply Hz.
  - now apply (nzhead_not_D0 l u).
Qed.

Lemma ends_number_inv (rest : string) :
  ends_number rest = true ->
  match rest with
  | EmptyString => True
  | String c _ =>
      Json.is_digit c = false /\ Ascii.eqb c "." = false /\
      Ascii.eqb c "e" = false /\ Ascii.eqb c "E" = false
  end.
Proof.
  destruct rest as [|c r]; simpl; [auto|].
  rewrite negb_true_iff, !orb_false_iff. tauto.
Qed.

Lemma ends_number_no_digit (rest : string) :
  ends_number rest = true ->
  match rest with String c _ => Json.is_digit c = false | EmptyString => True end.
Proof.
  intros H. apply ends_number_inv in H. destruct rest; tauto.
Qed.

Lemma digit_not_minus (c : ascii) : Json.is_digit c = true -> Ascii.eqb c "-" = false.
Proof.
  intros H. destruct (Ascii.eqb_spec c "-"); [subst; discriminate | reflexivity].
Qed.

Lemma scan_number_digits (sign ds rest : string) (c0 : ascii) :
  (sign = "" \/ sign = "-") ->
  Json.is_digit c0 = true ->
  all_digits ds = true ->
  (Ascii.eqb c0 "0" = false \/ ds = "") ->
  ends_number rest = true ->
  Json.scan_number (sign ++ String c0 ds ++ rest)
  = Some (PyInt (if String.eqb sign "-" then - Json.digits_value (String c0 ds) 0
                 else Json.digits_value (String c0 ds) 0), rest).
Proof.
  intros Hsign Hc0 Hds Hz Hrest.
  pose proof (ends_number_inv rest Hrest) as Hr.
  pose proof (span_digits_app (String c0 ds) rest) as Hspan.
  cbn [all_digits] in Hspan. rewrite Hc0, Hds in Hspan.
  specialize (Hspan eq_refl (ends_number_no_digit rest Hrest)).
  unfold Json.scan_number.
  assert (Hs : (let (sign0, s1) :=
                  match sign ++ String c0 ds ++ rest with
                  | String c t => if Ascii.eqb c "-" then ("-", t) else ("", sign ++ String c0 ds ++ rest)
                  | EmptyString => ("", sign ++ String c0 ds ++ rest)
                  end in (sign0, s1)) = (sign, String c0 ds ++ rest)).
  { destruct Hsign as [-> | ->]; cbn [String.append].
    - now rewrite (digit_not_minus c0 Hc0).
    - reflexivity. }
  destruct (match sign ++ String c0 ds ++ rest with
            | String c t => if Ascii.eqb c "-" then ("-", t) else ("", sign ++ String c0 ds ++ rest)
            | EmptyString => ("", sign ++ String c0 ds ++ rest)
            end) as [sign0 s1].
  injection Hs as -> ->.
  cbn [String.append]. rewrite Hc0.
  assert (Hint : (if Ascii.eqb c0 "0" then Some ("0", ds ++ rest)
                  else Some (Json.span_digits (String c0 (ds ++ rest))))
                 = Some (String c0 ds, rest)).
  { destruct Hz as [Hz | ->].
    - rewrite Hz. cbn [String.append] in Hspan. now rewrite Hspan.
    - cbn [String.append] in *.
      destruct (Ascii.eqb_spec c0 "0") as [->|_]; [reflexivity|].
      now rewrite Hspan. }
  rewrite Hint. clear Hint Hspan.
  destruct rest as [|c r]; [reflexivity|].
  destruct Hr as (_ & H1 & H2 & H3). rewrite H1. cbn iota. rewrite H2, H3.
  reflexivity.
Qed.

Lemma scan_number_int (z : Z) (rest : string) :
  ends_number rest = true ->
  Json.scan_number (Json.int_repr z ++ rest) = Some (PyInt z, rest).
Proof.
  intros Hrest. unfold Json.int_repr.
  destruct z as [|p|p]; cbn [Z.to_int NilZero.string_of_int].
  - change (NilZero.string_of_uint (Pos.to_uint 1)) with "1".
    exact (scan_number_digits "" "" rest "0" (or_introl eq_refl) eq_refl eq_refl
             (or_intror eq_refl) Hrest).
  - destruct (pos_head p) as (c & t & E & Hd & H0).
    assert (Es : NilZero.string_of_uint (Pos.to_uint p)
                 = NilEmpty.string_of_uint (Pos.to_uint p))
      by (pose proof (DecimalPos.Unsigned.to_uint_nonnil p);
          destruct (Pos.to_uint p); [congruence | reflexivity ..]).
    rewrite Es, E.
    assert (Hall : all_digits (String c t) = true)
      by (rewrite <- E; apply all_digits_uint).
    cbn [all_digits] in Hall. rewrite Hd in Hall.
    change (String c t ++ rest) with ("" ++ String c t ++ rest).
    rewrite (scan_number_digits "" t rest c (or_introl eq_refl) Hd Hall
               (or_introl H0) Hrest).
    cbn [String.eqb]. rewrite <- E, digits_value_uint, pos_value. reflexivity.
  - destruct (pos_head p) as (c & t & E & Hd & H0).
    assert (Es : NilZero.string_of_uint (Pos.to_uint p)
                 = NilEmpty.string_of_uint (Pos.to_uint p))
      by (pose proof (DecimalPos.Unsigned.to_uint_nonnil p);
          destruct (Pos.to_uint p); [congruence | reflexivity ..]).
    rewrite Es, E.
    assert (Hall : all_digits (String c t) = true)
      by (rewrite <- E; apply all_digits_uint).
    cbn [all_digits] in Hall. rewrite Hd in Hall.
    change (String "-" (String c t) ++ rest) with ("-" ++ String c t ++ rest).
    rewrite (scan_number_digits "-" t rest c (or_intror eq_refl) Hd Hall
               (or_introl H0) Hrest).
    cbn [String.eqb Ascii.eqb Bool.eqb].
    rewrite <- E, digits_value_uint, pos_value. reflexivity.
Qed.

Lemma span_digits_spec (s : string) :
  s = fst (Json.span_digits s) ++ snd (Json.span_digits s) /\
  all_digits (fst (Json.span_digits s)) = true.
Proof.
  induction s as [|c s [IH1 IH2]]; simpl; [auto|].
  destruct (Json.is_digit c) eqn:E.
  - destruct (Json.span_digits s) as [ds r]. simpl in *.
    rewrite E, IH2. split; [congruence | reflexivity].
  - simpl. auto.
Qed.

Lemma append_nil_r (s : string) : s ++ "" = s.
Proof. induction s; simpl; congruence. Qed.

Lemma append_assoc (a b c : string) : (a ++ b) ++ c = a ++ b ++ c.
Proof. induction a; simpl; congruence. Qed.

Lemma scan_number_fraction (sign ds fs rest : string) (c0 : ascii) :
  (sign = "" \/ sign = "-") ->
  Json.is_digit c0 = true ->
  all_digits ds = true ->
  (Ascii.eqb c0 "0" = false \/ ds = "") ->
  all_digits fs = true -> fs <> "" ->
  ends_number rest = true ->
  Json.scan_number (sign ++ String c0 ds ++ String "." fs ++ rest)
  = Some (PyFloat (sign ++ String c0 ds ++ String "." fs), rest).
Proof.
  intros Hsign Hc0 Hds Hz Hfs Hne Hrest.
  pose proof (ends_number_inv rest Hrest) as Hr.
  pose proof (span_digits_app (String c0 ds) (String "." fs ++ rest)) as Hspan.
  cbn [all_digits] in Hspan. rewrite Hc0, Hds in Hspan.
  specialize (Hspan eq_refl eq_refl).
  pose proof (span_digits_app fs rest Hfs (ends_number_no_digit rest Hrest)) as Hfrac.
  unfold Json.scan_number.
  assert (Hs : (let (sign0, s1) :=
                  match sign ++ String c0 ds ++ String "." fs ++ rest with
                  | String c t =>
                      if Ascii.eqb c "-" then ("-", t)
                      else ("", sign ++ String c0 ds ++ String "." fs ++ rest)
                  | EmptyString => ("", sign ++ String c0 ds ++ String "." fs ++ rest)
                  end in (sign0, s1))
               = (sign, String c0 ds ++ String "." fs ++ rest)).
  { destruct Hsign as [-> | ->]; cbn [String.append].
    - now rewrite (digit_not_minus c0 Hc0).
    - reflexivity. }
  destruct (match sign ++ String c0 ds ++ String "." fs ++ rest with
            | String c t =>
                if Ascii.eqb c "-" then ("-", t)
                else ("", sign ++ String c0 ds ++ String "." fs ++ rest)
            | EmptyString => ("", sign ++ String c0 ds ++ String "." fs ++ rest)
            end) as [sign0 s1].
  injection Hs as -> ->.
  cbn [String.append]. rewrite Hc0.
  assert (Hint : (if Ascii.eqb c0 "0" then Some ("0", ds ++ String "." (fs ++ rest))
                  else Some (Json.span_digits (String c0 (ds ++ String "." (fs ++ rest)))))
                 = Some (String c0 ds, String "." (fs ++ rest))).
  { cbn [String.append] in Hspan. destruct Hz as [Hz | ->].
    - rewrite Hz. now rewrite Hspan.
    - cbn [String.append] in *.
      destruct (Ascii.eqb_spec c0 "0") as [->|_]; [reflexivity|].
      now rewrite Hspan. }
  rewrite Hint. clear Hint Hspan.
  cbn [Ascii.eqb Bool.eqb]. cbn iota. rewrite Hfrac.
  destruct fs as [|f fs']; [congruence|].
  assert (Hexp : forall T (a b : T),
             match rest with
             | String c t => if Ascii.eqb c "e" || Ascii.eqb c "E" then a else b
             | EmptyString => b
             end = b).
  { intros T a b. destruct rest as [|c r]; [reflexivity|].
    destruct Hr as (_ & _ & H2 & H3). now rewrite H2, H3. }
  destruct rest as [|c r].
  - cbn. now rewrite !append_nil_r.
  - destruct Hr as (_ & _ & H2 & H3). rewrite H2, H3. cbn.
    now rewrite !append_nil_r.
Qed.

Lemma decimal_text_scan (t rest : string) :
  decimal_text t = true ->
  ends_number rest = true ->
  Json.scan_number (t ++ rest) = Some (PyFloat t, rest).
Proof.
  unfold decimal_text. intros Ht Hrest.
  assert (Hsplit : exists sign body,
             t = sign ++ body /\ (sign = "" \/ sign = "-") /\
             match body with
             | String c0 r =>
                 Json.is_digit c0 &&
                 (let (ds, r1) := Json.span_digits r in
                  (negb (Ascii.eqb c0 "0") || String.eqb ds "") &&
                  match r1 with
                  | String d fs =>
                      Ascii.eqb d "." && all_digits fs && negb (String.eqb fs "")
                  | EmptyString => false
                  end)
             | EmptyString => false
             end = true).
  { destruct t as [|c r]; [discriminate|].
    destruct (Ascii.eqb_spec c "-") as [->|_].
    - exists "-", r. auto.
    - exists "", (String c r). auto. }
  destruct Hsplit as (sign & body & -> & Hsign & Hb). clear Ht.
  destruct body as [|c0 r]; [discriminate|].
  apply andb_true_iff in Hb as [Hc0 Hb].
  destruct (span_digits_spec r) as [Hr Hds].
  destruct (Json.span_digits r) as [ds r1]. simpl in Hr, Hds.
  apply andb_true_iff in Hb as [Hz Hb].
  destruct r1 as [|d fs]; [discriminate|].
  apply andb_true_iff in Hb as [Hb Hne]. apply andb_true_iff in Hb as [Hd Hfs].
  apply Ascii.eqb_eq in Hd. subst d r.
  assert (E1 : (sign ++ String c0 (ds ++ String "." fs)) ++ rest
               = sign ++ String c0 ds ++ String "." fs ++ rest).
  { rewrite append_assoc. cbn [String.append]. now rewrite append_assoc. }
  assert (E2 : sign ++ String c0 (ds ++ String "." fs)
               = sign ++ String c0 ds ++ String "." fs) by reflexivity.
  rewrite E1, E2.
  apply scan_number_fraction; auto.
  - apply orb_true_iff in Hz as [Hz|Hz].
    + left. now apply negb_true_iff.
    + right. now apply String.eqb_eq.
  - apply negb_true_iff, String.eqb_neq in Hne. exact Hne.
Qed.

Lemma plain_char_cases (c : ascii) :
  plain_char c = true ->
  c = Json.dquote \/ c = Json.backslash \/
  (Ascii.eqb c Json.dquote = false /\ Ascii.eqb c Json.backslash = false /\
   (nat_of_ascii c <? 32)%nat = false /\
   Json.escape_cp (Z.of_nat (nat_of_ascii c)) = String c "").
Proof.
  destruct c as [[|] [|] [|] [|] [|] [|] [|] [|]]; intros H;
    first [ discriminate H
          | left; reflexivity
          | right; left; reflexivity
          | right; right; repeat split; vm_compute; reflexivity ].
Qed.

Lemma decode_head_plain (c : ascii) (t : string) :
  plain_char c = true ->
  Json.decode_head c t = (Z.of_nat (nat_of_ascii c), 1%nat).
Proof.
  intros H. unfold plain_char in H. apply andb_true_iff in H as [_ H].
  apply Nat.leb_le in H. unfold Json.decode_head.
  assert (H1 : (192 <=? Z.of_nat (nat_of_ascii c)) = false) by (apply Z.leb_gt; lia).
  assert (H2 : (224 <=? Z.of_nat (nat_of_ascii c)) = false) by (apply Z.leb_gt; lia).
  assert (H3 : (240 <=? Z.of_nat (nat_of_ascii c)) = false) by (apply Z.leb_gt; lia).
  rewrite H1, H2, H3.
  destruct t as [|c1 [|c2 [|c3 t3]]]; reflexivity.
Qed.

Lemma escape_text_step (n : nat) (c : ascii) (t : string) :
  plain_char c = true ->
  Json.escape_text (S n) (String c t)
  = Json.escape_cp (Z.of_nat (nat_of_ascii c)) ++ Json.escape_text n t.
Proof.
  intros H. cbn [Json.escape_text]. rewrite (decode_head_plain c t H). reflexivity.
Qed.

Lemma scan_string_escaped (s : string) :
  plain_text s = true ->
  forall fuel n rest,
    (String.length s < fuel)%nat -> (String.length s <= n)%nat ->
    Json.scan_string fuel (Json.escape_text n s ++ String Json.dquote rest)
    = Some (s, rest).
Proof.
  induction s as [|c t IH]; intros Hp fuel n rest Hf Hn.
  - destruct fuel as [|f]; [simpl in Hf; lia|].
    destruct n; reflexivity.
  - cbn [plain_text] in Hp. apply andb_true_iff in Hp as [Hc Ht].
    destruct fuel as [|f]; [simpl in Hf; lia|].
    destruct n as [|n]; [simpl in Hn; lia|].
    simpl in Hf, Hn.
    rewrite (escape_text_step n c t Hc).
    specialize (IH Ht f n rest ltac:(lia) ltac:(lia)).
    destruct (plain_char_cases c Hc) as [->|[->|(H1 & H2 & H3 & H4)]].
    + change (Json.escape_cp (Z.of_nat (nat_of_ascii Json.dquote)))
        with (String Json.backslash (String Json.dquote "")).
      cbn [String.append Json.scan_string].
      change (Ascii.eqb Json.backslash Json.dquote) with false.
      change (Ascii.eqb Json.backslash Json.backslash) with true.
      change (Ascii.eqb Json.dquote "u") with false.
      change (Json.unescape Json.dquote) with (Some Json.dquote).
      cbv iota. rewrite IH. reflexivity.
    + change (Json.escape_cp (Z.of_nat (nat_of_ascii Json.backslash)))
        with (String Json.backslash (String Json.backslash "")).
      cbn [String.append Json.scan_string].
      change (Ascii.eqb Json.backslash Json.dquote) with false.
      change (Ascii.eqb Json.backslash Json.backslash) with true.
      change (Ascii.eqb Json.backslash "u") with false.
      change (Json.unescape Json.backslash) with (Some Json.backslash).
      cbv iota. rewrite IH. reflexivity.
    + rewrite H4. cbn [String.append Json.scan_string].
      rewrite H1, H2, H3, IH. reflexivity.
Qed.

Lemma length_append (a b : string) :
  String.length (a ++ b) = (String.length a + String.length b)%nat.
Proof. induction a; simpl; congruence. Qed.

Lemma escape_text_length (s : string) :
  plain_text s = true ->
  forall n, (String.length s <= n)%nat ->
            (String.length s <= String.length (Json.escape_text n s))%nat.
Proof.
  induction s as [|c t IH]; intros Hp n Hn; [simpl; lia|].
  cbn [plain_text] in Hp. apply andb_true_iff in Hp as [Hc Ht].
  destruct n as [|n]; [simpl in Hn; lia|]. simpl in Hn.
  rewrite (escape_text_step n c t Hc), length_append.
  specialize (IH Ht n ltac:(lia)).
  destruct (plain_char_cases c Hc) as [->|[->|(_ & _ & _ & H4)]];
    [| |rewrite H4]; simpl String.length at 1; simpl; lia.
Qed.

Lemma concat_cons (a : string) (l : list string) :
  String.concat "" (a :: l) = a ++ String.concat "" l.
Proof. destruct l; simpl; [now rewrite append_nil_r | reflexivity]. Qed.

Lemma concat_app (a b : list string) :
  String.concat "" (a ++ b) = String.concat "" a ++ String.concat "" b.
Proof.
  induction a as [|x a IH]; [reflexivity|].
  change ((x :: a) ++ b)%list with (x :: (a ++ b))%list.
  now rewrite !concat_cons, IH, append_assoc.
Qed.

Lemma scalar_chunks (level : nat) (v : pyval) (t : string) :
  Json.scalar v = Some t -> Json.iterencode level v = [t].
Proof.
  destruct v as [| b | z | f | s | l | d]; simpl; try discriminate;
    try (intros [= <-]; reflexivity).
  - destruct b; intros [= <-]; reflexivity.
Qed.

Lemma item_chunks (level : nat) (buf : string) (v : pyval) :
  String.concat ""
    (match Json.scalar v with
     | Some t => [buf ++ t]
     | None => buf :: Json.iterencode level v
     end)
  = buf ++ text_of level v.
Proof.
  unfold text_of. destruct (Json.scalar v) as [t|] eqn:E.
  - rewrite (scalar_chunks level v t E). simpl. reflexivity.
  - now rewrite concat_cons.
Qed.

Lemma value_chunks (level : nat) (v : pyval) :
  String.concat ""
    (match Json.scalar v with
     | Some t => [t]
     | None => Json.iterencode level v
     end)
  = text_of level v.
Proof.
  unfold text_of. destruct (Json.scalar v) as [t|] eqn:E; [|reflexivity].
  now rewrite (scalar_chunks level v t E).
Qed.

Lemma text_of_list (level : nat) (x : pyval) (xs : list pyval) :
  text_of level (PyList (x :: xs))
  = "[" ++ Json.newline_indent (S level) ++ text_of (S level) x
    ++ items_tail (S level) xs ++ Json.newline_indent level ++ "]".
Proof.
  unfold text_of at 1. cbn [Json.iterencode].
  match goal with |- context [?f false xs] => set (items := f) end.
  assert (Hf : forall ys, String.concat "" (items false ys) = items_tail (S level) ys).
  { induction ys as [|y ys IH]; [reflexivity|].
    change (items false (y :: ys))
      with ((match Json.scalar y with
             | Some t => [("," ++ Json.newline_indent (S level) ++ t)%string]
             | None => ("," ++ Json.newline_indent (S level))%string
                       :: Json.iterencode (S level) y
             end ++ items false ys)%list).
    rewrite concat_app, IH.
    change ("," ++ Json.newline_indent (S level)) with
      (String "," (Json.newline_indent (S level))).
    pose proof (item_chunks (S level) (String "," (Json.newline_indent (S level))) y) as H.
    cbn [String.append] in H |- *. rewrite H.
    cbn [items_tail String.append]. now rewrite append_assoc. }
  rewrite !concat_app, Hf.
  pose proof (item_chunks (S level) (String "[" (Json.newline_indent (S level))) x) as H.
  cbn [String.append] in H |- *. rewrite H.
  cbn [String.append String.concat]. rewrite !append_assoc. reflexivity.
Qed.

Lemma text_of_dict (level : nat) (k : string) (v : pyval)
    (d : list (string * pyval)) :
  text_of level (PyDict ((k, v) :: d))
  = "{" ++ Json.newline_indent (S level) ++ member_text (S level) k v
    ++ members_tail (S level) d ++ Json.newline_indent level ++ "}".
Proof.
  unfold text_of at 1. cbn [Json.iterencode].
  match goal with |- context [?f false d] => set (members := f) end.
  assert (Hf : forall ys, String.concat "" (members false ys) = members_tail (S level) ys).
  { induction ys as [|[k' v'] ys IH]; [reflexivity|].
    change (members false ((k', v') :: ys))
      with (([("," ++ Json.newline_indent (S level))%string]
             ++ [Json.encode_str k'; ": "]
             ++ match Json.scalar v' with
                | Some t => [t]
                | None => Json.iterencode (S level) v'
                end
             ++ members false ys)%list).
    rewrite !concat_app, IH, value_chunks.
    cbn [members_tail String.concat String.append]. unfold member_text.
    rewrite !append_assoc. reflexivity. }
  rewrite !concat_cons, !concat_app, Hf, value_chunks.
  unfold member_text. cbn [String.concat String.append List.app].
  rewrite !append_assoc. reflexivity.
Qed.

Lemma pyval_induction (P : pyval -> Prop) :
  P PyNone -> (forall b, P (PyBool b)) -> (forall z, P (PyInt z)) ->
  (forall t, P (PyFloat t)) -> (forall s, P (PyStr s)) ->
  (forall l, Forall P l -> P (PyList l)) ->
  (forall d, Forall (fun kv => P (snd kv)) d -> P (PyDict d)) ->
  forall v, P v.
Proof.
  intros HN HB HI HF HS HL HD. fix IH 1. intros [| b | z | t | s | l | d].
  - exact HN.
  - apply HB.
  - apply HI.
  - apply HF.
  - apply HS.
  - apply HL. induction l as [|x l IHl]; constructor; [apply IH | exact IHl].
  - apply HD. induction d as [|[k x] d IHd]; constructor; [apply IH | exact IHd].
Qed.

Lemma starter_facts (c : ascii) :
  starter c = true ->
  Json.is_ws c = false /\ Ascii.eqb c "]" = false /\ Ascii.eqb c "}" = false.
Proof.
  destruct c as [[|] [|] [|] [|] [|] [|] [|] [|]]; intros H;
    first [discriminate H | repeat split; reflexivity].
Qed.

Lemma number_head_facts (c : ascii) :
  number_head c = true ->
  starter c = true /\
  Ascii.eqb c Json.dquote = false /\ Ascii.eqb c "{" = false /\
  Ascii.eqb c "[" = false /\ Ascii.eqb "n" c = false /\
  Ascii.eqb "t" c = false /\ Ascii.eqb "f" c = false.
Proof.
  destruct c as [[|] [|] [|] [|] [|] [|] [|] [|]]; intros H;
    first [discriminate H | repeat split; reflexivity].
Qed.

Lemma scan_value_number (fuel : nat) (c : ascii) (t : string)
    (r : pyval * string) :
  number_head c = true ->
  Json.scan_number (String c t) = Some r ->
  Json.scan_value (S fuel) (String c t) = Some r.
Proof.
  intros Hc Hn. destruct (number_head_facts c Hc) as (_ & H1 & H2 & H3 & H4 & H5 & H6).
  cbn [Json.scan_value]. rewrite H1, H2, H3.
  unfold Json.after. cbn [Text.startswith]. rewrite H4, H5, H6.
  cbn [Json.first_of]. rewrite Hn. reflexivity.
Qed.

Lemma int_repr_head (z : Z) :
  exists c t, Json.int_repr z = String c t /\ number_head c = true.
Proof.
  unfold Json.int_repr. destruct z as [|p|p]; cbn [Z.to_int NilZero.string_of_int].
  - exists "0"%char, "". split; reflexivity.
  - destruct (pos_head p) as (c & t & E & Hd & _).
    assert (Es : NilZero.string_of_uint (Pos.to_uint p)
                 = NilEmpty.string_of_uint (Pos.to_uint p))
      by (pose proof (DecimalPos.Unsigned.to_uint_nonnil p);
          destruct (Pos.to_uint p); [congruence | reflexivity ..]).
    rewrite Es, E. exists c, t. split; [reflexivity|].
    unfold number_head. now rewrite Hd.
  - eexists "-"%char, _. split; reflexivity.
Qed.

Lemma decimal_text_head (t : string) :
  decimal_text t = true -> exists c r, t = String c r /\ number_head c = true.
Proof.
  unfold decimal_text. destruct t as [|c r]; [discriminate|].
  destruct (Ascii.eqb_spec c "-") as [->|_].
  - intros _. exists "-"%char, r. split; reflexivity.
  - intros H. apply andb_true_iff in H as [H _]. exists c, r.
    split; [reflexivity|]. unfold number_head. now rewrite H.
Qed.

Lemma spaces_skip (n : nat) (s : string) :
  Json.skip_ws (Json.spaces n ++ s) = Json.skip_ws s.
Proof.
  induction n as [|n IH]; [reflexivity|]. cbn [Json.spaces String.append Json.skip_ws].
  change (Json.is_ws " ") with true. cbv iota. exact IH.
Qed.

Lemma skip_ws_newline (level : nat) (s : string) :
  Json.skip_ws (Json.newline_indent level ++ s) = Json.skip_ws s.
Proof.
  unfold Json.newline_indent. cbn [String.append Json.skip_ws].
  change (Json.is_ws "010") with true. cbv iota. apply spaces_skip.
Qed.

Lemma skip_ws_starter (c : ascii) (t : string) :
  Json.is_ws c = false -> Json.skip_ws (String c t) = String c t.
Proof. intros H. cbn [Json.skip_ws]. now rewrite H. Qed.

Lemma text_head (level : nat) (v : pyval) :
  plain v = true ->
  exists c t, text_of level v = String c t /\ starter c = true.
Proof.
  destruct v as [| b | z | f | s | l | d]; intros Hp.
  - exists "n"%char, "ull". split; reflexivity.
  - destruct b; [exists "t"%char, "rue" | exists "f"%char, "alse"];
      split; reflexivity.
  - destruct (int_repr_head z) as (c & t & E & Hc).
    exists c, t. split; [exact E | now apply number_head_facts].
  - destruct (decimal_text_head f Hp) as (c & t & E & Hc).
    exists c, t. split; [exact E | now apply number_head_facts].
  - eexists Json.dquote, _. split; reflexivity.
  - destruct l as [|x xs].
    + exists "["%char, "]". split; reflexivity.
    + rewrite text_of_list. eexists "["%char, _. split; reflexivity.
  - destruct d as [|[k x] d].
    + exists "{"%char, "}". split; reflexivity.
    + rewrite text_of_dict. eexists "{"%char, _. split; reflexivity.
Qed.

Lemma skip_ws_text (level : nat) (v : pyval) (rest : string) :
  plain v = true ->
  Json.skip_ws (text_of level v ++ rest) = text_of level v ++ rest.
Proof.
  intros Hp. destruct (text_head level v Hp) as (c & t & E & Hc).
  rewrite E. cbn [String.append]. apply skip_ws_starter.
  now apply starter_facts.
Qed.

Lemma scan_items_text (level outer : nat) (rest : string) (xs : list pyval) :
  forall x acc fuel,
    Forall reads_back (x :: xs) ->
    forallb plain (x :: xs) = true ->
    (items_size (x :: xs) <= fuel)%nat ->
    Json.scan_items fuel
      (text_of level x ++ items_tail level xs
       ++ Json.newline_indent outer ++ String "]" rest) acc
    = Some (PyList ((List.rev acc ++ x :: xs)%list), rest).
Proof.
  induction xs as [|y r IH]; intros x acc fuel Hall Hp Hf.
  - inversion Hall as [|? ? Hx _]; subst.
    destruct fuel as [|f]; [simpl in Hf; lia|]. simpl in Hf.
    cbn [Json.scan_items items_tail String.append].
    rewrite (Hx level f); [ | lia | reflexivity ].
    rewrite skip_ws_newline. cbn [String.append Json.skip_ws].
    change (Json.is_ws "]") with false. cbv iota.
    change (Ascii.eqb "]" "]") with true. cbv iota.
    reflexivity.
  - inversion Hall as [|? ? Hx Hall']; subst.
    cbn [forallb] in Hp. apply andb_true_iff in Hp as [Hpx Hp].
    pose proof Hp as Hp'. cbn [forallb] in Hp'. apply andb_true_iff in Hp' as [Hpy _].
    destruct fuel as [|f]; [simpl in Hf; lia|].
    cbn [items_size fold_right] in Hf. fold (items_size r) in Hf.
    cbn [Json.scan_items items_tail].
    rewrite !append_assoc. cbn [String.append].
    rewrite (Hx level f); [ | lia | reflexivity ].
    cbn [Json.skip_ws]. change (Json.is_ws ",") with false. cbv iota.
    change (Ascii.eqb "," "]") with false. change (Ascii.eqb "," ",") with true.
    cbv iota. rewrite skip_ws_newline, (skip_ws_text level y _ Hpy).
    rewrite (IH y (x :: acc) f Hall' Hp).
    + cbn [List.rev]. now rewrite <- app_assoc.
    + cbn [items_size fold_right]. fold (items_size r). lia.
Qed.

Lemma dict_get_fresh (k : string) (v : pyval) (acc : list (string * pyval)) :
  dict_get k acc = None -> dict_set k v acc = (acc ++ [(k, v)])%list.
Proof.
  induction acc as [|[k' v'] acc IH]; simpl; [reflexivity|].
  destruct (String.eqb k k'); [discriminate|]. intros H. now rewrite IH.
Qed.

Lemma dict_get_snoc (k k' : string) (v : pyval) (acc : list (string * pyval)) :
  dict_get k' acc = None -> String.eqb k k' = false ->
  dict_get k' (acc ++ [(k, v)]) = None.
Proof.
  intros Ha Hk. induction acc as [|[k0 v0] acc IH]; simpl in *.
  - rewrite String.eqb_sym, Hk. reflexivity.
  - destruct (String.eqb k' k0); [discriminate | auto].
Qed.

Lemma encode_str_text (k : string) (s : string) :
  Json.encode_str k ++ s
  = String Json.dquote
      (Json.escape_text (String.length k) k ++ String Json.dquote s).
Proof.
  unfold Json.encode_str. cbn [String.append]. now rewrite append_assoc.
Qed.

Lemma scan_key (k s : string) :
  plain_text k = true ->
  Json.scan_string
    (S (String.length (Json.escape_text (String.length k) k ++ String Json.dquote s)))
    (Json.escape_text (String.length k) k ++ String Json.dquote s)
  = Some (k, s).
Proof.
  intros Hk. apply scan_string_escaped; auto.
  rewrite length_append.
  pose proof (escape_text_length k Hk (String.length k) (Nat.le_refl _)). lia.
Qed.

Lemma skip_ws_space (s : string) :
  Json.skip_ws (String " " s) = Json.skip_ws s.
Proof. reflexivity. Qed.

Lemma scan_members_text (level outer : nat) (rest : string)
    (d : list (string * pyval)) :
  forall k v acc fuel,
    Forall (fun kv => reads_back (snd kv)) ((k, v) :: d) ->
    forallb (fun kv => plain_text (fst kv) && plain (snd kv)) ((k, v) :: d) = true ->
    keys_fresh ((k, v) :: d) = true ->
    (forall kv, In kv ((k, v) :: d) -> dict_get (fst kv) acc = None) ->
    (members_size ((k, v) :: d) <= fuel)%nat ->
    Json.scan_members fuel
      (member_text level k v ++ members_tail level d
       ++ Json.newline_indent outer ++ String "}" rest) acc
    = Some (PyDict (acc ++ (k, v) :: d), rest).
Proof.
  induction d as [|[k' v'] r IH]; intros k v acc fuel Hall Hp Hfresh Hacc Hf.
  - inversion Hall as [|? ? Hv _]; subst. cbn [snd] in Hv.
    cbn [forallb fst snd] in Hp. rewrite andb_true_r in Hp.
    apply andb_true_iff in Hp as [Hk Hpv].
    destruct fuel as [|f]; [simpl in Hf; lia|]. simpl in Hf.
    unfold member_text. rewrite !append_assoc, encode_str_text.
    cbn [Json.scan_members members_tail String.append].
    change (Ascii.eqb Json.dquote Json.dquote) with true. cbn [negb].
    rewrite (scan_key k _ Hk).
    cbn [Json.skip_ws]. change (Json.is_ws ":") with false. cbv iota.
    change (Ascii.eqb ":" ":") with true. cbn [negb].
    rewrite skip_ws_space.
    rewrite (skip_ws_text level v _ Hpv).
    rewrite (Hv level f); [ | lia | reflexivity ].
    rewrite skip_ws_newline. cbn [String.append Json.skip_ws].
    change (Json.is_ws "}") with false. cbv iota.
    change (Ascii.eqb "}" "}") with true. cbv iota.
    rewrite (dict_get_fresh k v acc (Hacc (k, v) (or_introl eq_refl))).
    reflexivity.
  - inversion Hall as [|? ? Hv Hall']; subst. cbn [snd] in Hv.
    cbn [forallb] in Hp. apply andb_true_iff in Hp as [Hkv Hp].
    cbn [fst snd] in Hkv. apply andb_true_iff in Hkv as [Hk Hpv].
    pose proof Hp as Hp'. cbn [forallb fst snd] in Hp'.
    apply andb_true_iff in Hp' as [Hkv' _]. apply andb_true_iff in Hkv' as [Hk' _].
    cbn [keys_fresh] in Hfresh. apply andb_true_iff in Hfresh as [Hnew Hfresh].
    apply negb_true_iff in Hnew.
    destruct fuel as [|f]; [simpl in Hf; lia|].
    cbn [members_size fold_right snd] in Hf. fold (members_size r) in Hf.
    unfold member_text at 1. rewrite !append_assoc, encode_str_text.
    cbn [Json.scan_members].
    change (Ascii.eqb Json.dquote Json.dquote) with true. cbn [negb].
    rewrite (scan_key k _ Hk).
    cbn [String.append Json.skip_ws]. change (Json.is_ws ":") with false. cbv iota.
    change (Ascii.eqb ":" ":") with true. cbn [negb].
    rewrite skip_ws_space.
    rewrite (skip_ws_text level v _ Hpv).
    cbn [members_tail]. rewrite !append_assoc. cbn [String.append].
    rewrite (Hv level f); [ | lia | reflexivity ].
    cbn [Json.skip_ws]. change (Json.is_ws ",") with false. cbv iota.
    change (Ascii.eqb "," "}") with false. change (Ascii.eqb "," ",") with true.
    cbv iota. rewrite skip_ws_newline.
    rewrite (dict_get_fresh k v acc (Hacc (k, v) (or_introl eq_refl))).
    assert (Hskip : forall s, Json.skip_ws (member_text level k' v' ++ s)
                              = member_text level k' v' ++ s).
    { intros s. unfold member_text. rewrite !append_assoc, encode_str_text.
      reflexivity. }
    rewrite Hskip.
    rewrite (IH k' v' (acc ++ [(k, v)])%list f Hall' Hp Hfresh).
    + now rewrite <- app_assoc.
    + intros kv Hin. apply dict_get_snoc.
      * apply Hacc. now right.
      * destruct (String.eqb k (fst kv)) eqn:E; [|reflexivity].
        exfalso. assert (Hex : existsb (String.eqb k) (map fst ((k', v') :: r)) = true).
        { apply existsb_exists. exists (fst kv). split; [now apply in_map | exact E]. }
        congruence.
    + cbn [members_size fold_right snd]. fold (members_size r). lia.
Qed.

Lemma match_head {A : Type} (T : string) (close : ascii)
    (X : string -> A) (Y Z : A) :
  (exists c t, T = String c t /\ Ascii.eqb c close = false) ->
  match T with
  | String d u => if Ascii.eqb d close then X u else Y
  | EmptyString => Z
  end = Y.
Proof. intros (c & t & -> & ->). reflexivity. Qed.

Lemma scan_text (v : pyval) : plain v = true -> reads_back v.
Proof.
  induction v as [| b | z | t | s | l IH | d IH] using pyval_induction;
    intros Hp level fuel rest Hf Hrest;
    (destruct fuel as [|f]; [simpl in Hf; lia|]).
  - reflexivity.
  - destruct b; reflexivity.
  - destruct (int_repr_head z) as (c & t & E & Hc).
    change (text_of level (PyInt z)) with (Json.int_repr z).
    pose proof (scan_number_int z rest Hrest) as Hn.
    rewrite E in *. cbn [String.append] in *.
    now apply scan_value_number.
  - cbn [plain] in Hp.
    destruct (decimal_text_head t Hp) as (c & t' & E & Hc).
    change (text_of level (PyFloat t)) with t.
    pose proof (decimal_text_scan t rest Hp Hrest) as Hn.
    rewrite E in Hn |- *. cbn [String.append] in *.
    rewrite (scan_value_number f c (t' ++ rest) _ Hc Hn).
    now rewrite <- E.
  - cbn [plain] in Hp.
    change (text_of level (PyStr s)) with (Json.encode_str s).
    rewrite encode_str_text. cbn [Json.scan_value].
    change (Ascii.eqb Json.dquote Json.dquote) with true. cbv iota.
    now rewrite (scan_key s rest Hp).
  - destruct l as [|x xs]; [reflexivity|].
    assert (Hall : Forall reads_back (x :: xs)).
    { cbn [plain] in Hp. clear Hf. induction IH as [|y ys Hy _ IHys]; constructor.
      - apply Hy. cbn [forallb] in Hp. now apply andb_true_iff in Hp as [Hp _].
      - apply IHys. cbn [forallb] in Hp. now apply andb_true_iff in Hp as [_ Hp]. }
    cbn [plain] in Hp. pose proof Hp as Hp'. cbn [forallb] in Hp'.
    apply andb_true_iff in Hp' as [Hpx _].
    rewrite text_of_list, !append_assoc. cbn [String.append Json.scan_value].
    change (Ascii.eqb "[" Json.dquote) with false.
    change (Ascii.eqb "[" "{") with false.
    change (Ascii.eqb "[" "[") with true. cbv iota.
    rewrite ?append_assoc. cbn [String.append].
    rewrite skip_ws_newline, (skip_ws_text (S level) x _ Hpx).
    rewrite match_head.
    + rewrite (scan_items_text (S level) level rest xs x [] f Hall Hp); [reflexivity|].
      cbn [nodes] in Hf. unfold items_size. lia.
    + destruct (text_head (S level) x Hpx) as (c & t & E & Hc).
      exists c. eexists. rewrite E. cbn [String.append]. split; [reflexivity|].
      now apply starter_facts.
  - destruct d as [|[k x] d]; [reflexivity|].
    assert (Hall : Forall (fun kv => reads_back (snd kv)) ((k, x) :: d)).
    { cbn [plain] in Hp. apply andb_true_iff in Hp as [Hp _]. clear Hf.
      induction IH as [|y ys Hy _ IHys]; constructor.
      - apply Hy. cbn [forallb] in Hp. apply andb_true_iff in Hp as [Hp _].
        now apply andb_true_iff in Hp as [_ Hp].
      - apply IHys. cbn [forallb] in Hp. now apply andb_true_iff in Hp as [_ Hp]. }
    cbn [plain] in Hp. apply andb_true_iff in Hp as [Hp Hfresh].
    rewrite text_of_dict, !append_assoc. cbn [String.append Json.scan_value].
    change (Ascii.eqb "{" Json.dquote) with false.
    change (Ascii.eqb "{" "{") with true. cbv iota.
    rewrite ?append_assoc. cbn [String.append].
    rewrite skip_ws_newline.
    assert (Hhead : forall s, exists t,
               member_text (S level) k x ++ s = String Json.dquote t).
    { intros s0. unfold member_text. rewrite !append_assoc, encode_str_text.
      eexists. reflexivity. }
    destruct (Hhead (members_tail (S level) d
                     ++ Json.newline_indent level ++ String "}" rest)) as (t & E).
    assert (Hskip : Json.skip_ws (member_text (S level) k x ++ members_tail (S level) d
                     ++ Json.newline_indent level ++ String "}" rest)
                    = member_text (S level) k x ++ members_tail (S level) d
                     ++ Json.newline_indent level ++ String "}" rest).
    { rewrite E. reflexivity. }
    rewrite Hskip. rewrite match_head.
    + rewrite (scan_members_text (S level) level rest d k x [] f Hall Hp Hfresh);
        [reflexivity | reflexivity |].
      cbn [nodes] in Hf. unfold members_size. lia.
    + exists Json.dquote, t. split; [exact E | reflexivity].
Qed.

Lemma items_tail_length (level : nat) (xs : list pyval) :
  Forall (fun x => forall lv, (nodes x <= String.length (text_of lv x))%nat) xs ->
  (items_size xs <= String.length (items_tail level xs))%nat.
Proof.
  induction 1 as [|x xs Hx _ IH]; [apply Nat.le_0_l|].
  cbn [items_size fold_right items_tail]. fold (items_size xs).
  rewrite !length_append. cbn [String.length]. specialize (Hx level). lia.
Qed.

Lemma members_tail_length (level : nat) (d : list (string * pyval)) :
  Forall (fun kv => forall lv, (nodes (snd kv) <= String.length (text_of lv (snd kv)))%nat) d ->
  (members_size d <= String.length (members_tail level d))%nat.
Proof.
  induction 1 as [|[k x] d Hx _ IH]; [apply Nat.le_0_l|].
  cbn [members_size fold_right members_tail snd] in *. fold (members_size d).
  unfold member_text. rewrite !length_append. cbn [String.length].
  specialize (Hx level). lia.
Qed.

Lemma size_le_text (v : pyval) :
  plain v = true -> forall level, (nodes v <= String.length (text_of level v))%nat.
Proof.
  induction v as [| b | z | t | s | l IH | d IH] using pyval_induction;
    intros Hp level.
  - apply Nat.le_succ_l. apply Nat.lt_0_succ.
  - destruct b; apply Nat.le_succ_l; apply Nat.lt_0_succ.
  - destruct (text_head level (PyInt z) Hp) as (c & t & -> & _).
    cbn [nodes String.length]. lia.
  - destruct (text_head level (PyFloat t) Hp) as (c & t' & -> & _).
    cbn [nodes String.length]. lia.
  - destruct (text_head level (PyStr s) Hp) as (c & t & -> & _).
    cbn [nodes String.length]. lia.
  - destruct l as [|x xs]; [cbn; lia|].
    assert (Hall : Forall (fun x => forall lv,
                             (nodes x <= String.length (text_of lv x))%nat) (x :: xs)).
    { cbn [plain] in Hp. induction IH as [|y ys Hy _ IHys]; constructor.
      - apply Hy. cbn [forallb] in Hp. now apply andb_true_iff in Hp as [Hp _].
      - apply IHys. cbn [forallb] in Hp. now apply andb_true_iff in Hp as [_ Hp]. }
    rewrite text_of_list, !length_append.
    inversion Hall as [|? ? Hx Hxs]; subst.
    pose proof (items_tail_length (S level) xs Hxs).
    specialize (Hx (S level)).
    cbn [nodes fold_right String.length]. unfold items_size in *. lia.
  - destruct d as [|[k x] d]; [cbn; lia|].
    assert (Hall : Forall (fun kv => forall lv,
               (nodes (snd kv) <= String.length (text_of lv (snd kv)))%nat) ((k, x) :: d)).
    { cbn [plain] in Hp. apply andb_true_iff in Hp as [Hp _].
      induction IH as [|y ys Hy _ IHys]; constructor.
      - apply Hy. cbn [forallb] in Hp. apply andb_true_iff in Hp as [Hp _].
        now apply andb_true_iff in Hp as [_ Hp].
      - apply IHys. cbn [forallb] in Hp. now apply andb_true_iff in Hp as [_ Hp]. }
    rewrite text_of_dict. unfold member_text. rewrite !length_append.
    inversion Hall as [|? ? Hx Hxs]; subst.
    pose proof (members_tail_length (S level) d Hxs).
    specialize (Hx (S level)). cbn [snd] in Hx.
    cbn [nodes fold_right String.length snd]. unfold members_size in *. lia.
Qed.

(** What [json.dump] writes for a plain value, [json.load] reads back as
    that value. *)
Lemma loads_dumps (v : pyval) :
  plain v = true -> Json.loads (Json.dumps v) = Some v.
Proof.
  intros Hp. unfold Json.loads, Json.dumps. fold (text_of 0 v).
  pose proof (skip_ws_text 0 v "" Hp) as Hs. rewrite append_nil_r in Hs.
  rewrite Hs.
  pose proof (scan_text v Hp 0%nat (2 * String.length (text_of 0 v) + 2)%nat "") as Hr.
  rewrite append_nil_r in Hr. rewrite Hr; [reflexivity | | reflexivity].
  pose proof (size_le_text v Hp 0). lia.
Qed.

(** On a disk that swallows no error, a save that returns leaves a file
    from which [load_progress] gives back the progress that was saved,
    whatever the file held before: a restart after such a save resumes
    from exactly the saved state. *)
Theorem saved_progress_loads (f : option fault) (p : pyval)
    (old file : option string) :
  (forall k, f <> Some (Swallowed k)) ->
  plain p = true ->
  save_progress f p old = (Ok tt, file) ->
  load_progress file = Ok p.
Proof.
  intros Hf Hp Hs. apply (save_ok _ _ _ _ Hf) in Hs. subst file.
  unfold load_progress. now rewrite (loads_dumps p Hp).
Qed.

Lemma saved_progress_loads_witness :
  (forall k, Some (Raised 99) <> Some (Swallowed k)) /\
  plain (Stub.progress_upto 2) = true /\
  save_progress (Some (Raised 99)) (Stub.progress_upto 2) (Stub.file_upto 1)
  = (Ok tt, Stub.file_upto 2) /\
  load_progress (Stub.file_upto 2) = Ok (Stub.progress_upto 2).
Proof.
  assert (Hf : forall k, Some (Raised 99) <> Some (Swallowed k))
    by (intros k; discriminate).
  assert (Hp : plain (Stub.progress_upto 2) = true) by (vm_compute; reflexivity).
  assert (Hs : save_progress (Some (Raised 99)) (Stub.progress_upto 2)
                 (Stub.file_upto 1)
               = (Ok tt, Stub.file_upto 2)) by (vm_compute; reflexivity).
  split; [exact Hf|]. split; [exact Hp|]. split; [exact Hs|].
  exact (saved_progress_loads (Some (Raised 99)) (Stub.progress_upto 2)
           (Stub.file_upto 1) (Stub.file_upto 2) Hf Hp Hs).
Defined.

(** The proviso is needed: when the flush fails behind the back of the
    script, the save returns all the same and the file it leaves cannot be
    loaded. *)
Example swallowed_save_does_not_load :
  save_progress (Some (Swallowed 4)) (Stub.progress_upto 2) (Stub.file_upto 1)
  = (Ok tt, Stub.file_torn) /\
  load_progress Stub.file_torn = Raise JSONDecodeError.
Proof. split; vm_compute; reflexivity. Qed.
